(** * TextBubbleSkin: the cached, styleable text bubble of scratch-render

    A shallow embedding of [scratch-render/src/TextBubbleSkin.js] and the
    properties its specification states about it.

    Conventions of the embedding.
    - A JavaScript number is a [number]: [NaN], an infinity, or a finite
      value kept as the rational it is.  The arithmetic operators round their
      exact result to the nearest double, as the engine does; the sign of zero
      is not kept.
    - The skin, its canvas element, the measurement provider's memo table, the
      WebGL context's supply of texture objects and the sequence of calls made
      to the platform live in one record, [Skin]; every method is a function
      in the state-and-exception monad [M] over it.
    - Calls to the platform (2D context, WebGL, event emitter) are recorded
      in [trace], oldest first, and are taken to succeed.  The one exception
      that is modelled is the [TypeError] of dereferencing [this._canvas]
      once [dispose] has set it to [null]. *)

From Stdlib Require Import ZArith QArith Qround Qabs Qminmax Qpower List Ascii String Bool.
From Stdlib Require Import Lia Lqa.
From stdpp Require Import gmap strings.
Import ListNotations.

Set Default Proof Using "Type".
Local Open Scope string_scope.
Local Open Scope list_scope.

(** ** JavaScript numbers *)

Inductive number : Type :=
| NaN
| Fin (q : Q)
| Infinity (negative : bool).

Declare Scope num_scope.
Delimit Scope num_scope with num.
Bind Scope num_scope with number.

Definition number_of_Z (z : Z) : number := Fin (inject_Z z).

Definition number_to_Z (n : number) : option Z :=
  match n with
  | Fin (Qmake z 1) => Some z
  | _ => None
  end.

Number Notation number number_of_Z number_to_Z : num_scope.

(** *** Rounding to a double

    The result of an arithmetic operation is the exact result rounded to the
    nearest binary64 value, ties to the even significand: 53 bits of
    significand, the least exponent of the subnormal numbers, and an infinity
    once the rounded magnitude reaches [2 ^ 1024]. *)

(** [2 ^ e], for an exponent of either sign. *)
Definition two_to (e : Z) : Q :=
  match e with
  | Zneg p => 1 # (2 ^ p)
  | _ => inject_Z (2 ^ e)
  end.

(** The [k] with [2 ^ k <= q < 2 ^ (k + 1)], for a positive [q]. *)
Definition binade (q : Q) : Z :=
  let k := (Z.log2 (Qnum q) - Z.log2 (Zpos (Qden q)))%Z in
  if Qle_bool (two_to k) q then k else (k - 1)%Z.

(** The integer nearest to a non-negative [q], the even one of two. *)
Definition nearest_even (q : Q) : Z :=
  let f := Qfloor q in
  match Qcompare (q - inject_Z f) (1 # 2) with
  | Lt => f
  | Gt => (f + 1)%Z
  | Eq => if Z.even f then f else (f + 1)%Z
  end.

Definition Qnegative (q : Q) : bool := (Qnum q <? 0)%Z.

Definition binary64 (q : Q) : number :=
  let q := Qred q in
  if Qeq_bool q 0 then Fin 0 else
  let e := Z.max (binade (Qabs q) - 52) (-1074) in
  let m := nearest_even (Qabs q * two_to (- e)) in
  if (972 <=? e)%Z || ((e =? 971)%Z && (m =? 2 ^ 53)%Z) then Infinity (Qnegative q)
  else Fin (Qred ((if Qnegative q then - inject_Z m else inject_Z m) * two_to e)).

(** A decimal literal of the source: the double nearest to it. *)
Definition dec (q : Q) : number := binary64 q.

(** *** Operators and [Math] *)

Definition nneg (a : number) : number :=
  match a with
  | Fin x => Fin (- x)
  | Infinity negative => Infinity (negb negative)
  | NaN => NaN
  end.

Definition nadd (a b : number) : number :=
  match a, b with
  | Fin x, Fin y => binary64 (x + y)
  | Infinity s, Infinity t => if Bool.eqb s t then Infinity s else NaN
  | Infinity s, Fin _ | Fin _, Infinity s => Infinity s
  | _, _ => NaN
  end.

Definition nsub (a b : number) : number := nadd a (nneg b).

Definition nmul (a b : number) : number :=
  match a, b with
  | Fin x, Fin y => binary64 (x * y)
  | Infinity s, Infinity t => Infinity (xorb s t)
  | Infinity s, Fin y | Fin y, Infinity s =>
      if Qeq_bool y 0 then NaN else Infinity (xorb s (Qnegative y))
  | _, _ => NaN
  end.

(** [a / b].  The only divisor in the source is the literal [100]; a zero
    divisor is read as the positive zero. *)
Definition ndiv (a b : number) : number :=
  match a, b with
  | Fin x, Fin y =>
      if Qeq_bool y 0
      then if Qeq_bool x 0 then NaN else Infinity (Qnegative x)
      else binary64 (x / y)
  | Fin _, Infinity _ => Fin 0
  | Infinity s, Fin y => Infinity (xorb s (Qnegative y))
  | _, _ => NaN
  end.

Definition Math_abs (a : number) : number :=
  match a with
  | Fin x => Fin (Qabs x)
  | Infinity _ => Infinity false
  | NaN => NaN
  end.

Definition Math_max (a b : number) : number :=
  match a, b with
  | NaN, _ | _, NaN => NaN
  | Fin x, Fin y => if Qle_bool x y then Fin y else Fin x
  | Infinity false, _ | _, Infinity false => Infinity false
  | Infinity true, other | other, Infinity true => other
  end.

Definition Math_min (a b : number) : number :=
  match a, b with
  | NaN, _ | _, NaN => NaN
  | Fin x, Fin y => if Qle_bool x y then Fin x else Fin y
  | Infinity true, _ | _, Infinity true => Infinity true
  | Infinity false, other | other, Infinity false => other
  end.

Definition Math_ceil (a : number) : number :=
  match a with
  | Fin x => Fin (inject_Z (Qceiling x))
  | other => other
  end.

(** [a !== b] on numbers: [NaN] differs from everything, itself included. *)
Definition strict_neq (a b : number) : bool :=
  match a, b with
  | Fin x, Fin y => negb (Qeq_bool x y)
  | Infinity s, Infinity t => xorb s t
  | _, _ => true
  end.

(** [Math.PI], the double nearest to pi, which is this rational exactly. *)
Definition Math_PI : number := Fin (884279719003555 # 281474976710656).

Notation "a + b" := (nadd a b) : num_scope.
Notation "a - b" := (nsub a b) : num_scope.
Notation "a * b" := (nmul a b) : num_scope.
Notation "a / b" := (ndiv a b) : num_scope.
Notation "- a" := (nneg a) : num_scope.
Infix "!==" := strict_neq (at level 70, no associativity) : num_scope.

Definition number_of_nat (n : nat) : number := number_of_Z (Z.of_nat n).

(** ** Bubble style *)

Record BubbleStyle : Type := {
  maxLineWidth : number;
  minWidth : number;
  strokeWidth : number;
  padding : number;
  cornerRadius : number;
  tailHeight : number;
  font : string;
  fontSize : number;
  fontHeightRatio : number;
  lineHeight : number;
  bubbleFill : string;
  bubbleStroke : string;
  textFill : string
}.

Definition DEFAULT_BUBBLE_STYLE : BubbleStyle := {|
  maxLineWidth := 170;
  minWidth := 50;
  strokeWidth := 4;
  padding := 10;
  cornerRadius := 16;
  tailHeight := 12;
  font := "Helvetica";
  fontSize := 14;
  fontHeightRatio := dec 0.9;
  lineHeight := 16;
  bubbleFill := "white";
  bubbleStroke := "rgba(0, 0, 0, 0.15)";
  textFill := "#575E75"
|}.

Definition MAX_SCALE : number := 10.

(** The argument of [setStyle]: an object holding any subset of the style's
    properties ([None]: the property is not there). *)
Record NewStyle : Type := {
  new_maxLineWidth : option number;
  new_minWidth : option number;
  new_strokeWidth : option number;
  new_padding : option number;
  new_cornerRadius : option number;
  new_tailHeight : option number;
  new_font : option string;
  new_fontSize : option number;
  new_fontHeightRatio : option number;
  new_lineHeight : option number;
  new_bubbleFill : option string;
  new_bubbleStroke : option string;
  new_textFill : option string
}.

(** What [Object.assign] leaves under one key: the source's value when it
    has the key, the target's otherwise. *)
Definition assigned {A : Type} (target : A) (source : option A) : A :=
  match source with
  | Some v => v
  | None => target
  end.

(** [Object.assign({}, style, newStyle)] *)
Definition Object_assign (style : BubbleStyle) (newStyle : NewStyle) : BubbleStyle := {|
  maxLineWidth := assigned (maxLineWidth style) (new_maxLineWidth newStyle);
  minWidth := assigned (minWidth style) (new_minWidth newStyle);
  strokeWidth := assigned (strokeWidth style) (new_strokeWidth newStyle);
  padding := assigned (padding style) (new_padding newStyle);
  cornerRadius := assigned (cornerRadius style) (new_cornerRadius newStyle);
  tailHeight := assigned (tailHeight style) (new_tailHeight newStyle);
  font := assigned (font style) (new_font newStyle);
  fontSize := assigned (fontSize style) (new_fontSize newStyle);
  fontHeightRatio := assigned (fontHeightRatio style) (new_fontHeightRatio newStyle);
  lineHeight := assigned (lineHeight style) (new_lineHeight newStyle);
  bubbleFill := assigned (bubbleFill style) (new_bubbleFill newStyle);
  bubbleStroke := assigned (bubbleStroke style) (new_bubbleStroke newStyle);
  textFill := assigned (textFill style) (new_textFill newStyle)
|}.

(** The object literal [{}]. *)
Definition no_properties : NewStyle := {|
  new_maxLineWidth := None; new_minWidth := None; new_strokeWidth := None;
  new_padding := None; new_cornerRadius := None; new_tailHeight := None;
  new_font := None; new_fontSize := None; new_fontHeightRatio := None;
  new_lineHeight := None; new_bubbleFill := None; new_bubbleStroke := None;
  new_textFill := None
|}.

(** The object literal [{fontSize: n}]. *)
Definition only_fontSize (n : number) : NewStyle := {|
  new_maxLineWidth := None; new_minWidth := None; new_strokeWidth := None;
  new_padding := None; new_cornerRadius := None; new_tailHeight := None;
  new_font := None; new_fontSize := Some n; new_fontHeightRatio := None;
  new_lineHeight := None; new_bubbleFill := None; new_bubbleStroke := None;
  new_textFill := None
|}.

(** ** The canvas, the platform calls and the skin *)

(** The [font] property of the 2D context: the context's initial value, or
    the template [`${size}px ${family}, sans-serif`] that [_restyleCanvas]
    builds. *)
Inductive CanvasFont : Type :=
| initial_font
| px_font (size : number) (family : string).

(** The canvas element.  Assigning its width or its height resets the state
    of its context, the font included. *)
Record Canvas : Type := {
  canvas_width : number;
  canvas_height : number;
  canvas_font : CanvasFont
}.

(** The [width] and the [height] of the element are [unsigned long]
    attributes.  A number assigned to one is first converted: truncated and
    taken modulo [2 ^ 32], [NaN] and the infinities becoming 0.  The element
    keeps the converted value when it is at most [2 ^ 31 - 1] and falls back
    to the attribute's default (300 for the width, 150 for the height)
    otherwise; this is what reading the attribute then gives. *)
Definition ToUint32 (n : number) : Z :=
  match n with
  | Fin q => ((Qnum q ÷ Zpos (Qden q)) mod 2 ^ 32)%Z
  | _ => 0%Z
  end.

Definition reflected (default : Z) (n : number) : number :=
  let value := ToUint32 n in
  number_of_Z (if (value <=? 2147483647)%Z then value else default).

Record Dimensions : Type := {
  width : number;
  height : number
}.

(** A WebGL texture object, named by its rank of creation. *)
Definition WebGLTexture : Type := nat.

Inductive GLenum : Type := CLAMP_TO_EDGE.

(** What [getImageData] hands back: a pixel buffer of the given extent. *)
Record ImageData : Type := {
  data_width : number;
  data_height : number
}.

(** Methods and property assignments of the 2D context. *)
Inductive ContextCall : Type :=
| ctx_font (f : CanvasFont)
| ctx_setTransform (a b c d e f : number)
| ctx_clearRect (x y w h : number)
| ctx_scale (x y : number)
| ctx_translate (x y : number)
| ctx_save
| ctx_restore
| ctx_beginPath
| ctx_moveTo (x y : number)
| ctx_arcTo (x1 y1 x2 y2 radius : number)
| ctx_bezierCurveTo (cp1x cp1y cp2x cp2y x y : number)
| ctx_closePath
| ctx_arc (x y radius startAngle endAngle : number)
| ctx_fillStyle (s : string)
| ctx_strokeStyle (s : string)
| ctx_lineWidth (n : number)
| ctx_stroke
| ctx_fill
| ctx_fillText (text : string) (x y : number)
| ctx_getImageData (sx sy sw sh : number).

Inductive Event : Type :=
| Ctx (c : ContextCall)
| assign_canvas_width (n : number)
| assign_canvas_height (n : number)
| call_wrapText (maxWidth : number) (text : option string)
| call_measureText (text : string)
| call_clearCache
| gl_deleteTexture (t : WebGLTexture)
| twgl_createTexture (auto : bool) (wrap : GLenum) (t : WebGLTexture)
| call_setTexture (t : option WebGLTexture) (textureData : ImageData)
| call_emitWasAltered
| super_dispose.

Record Skin : Type := {
  (* the fields of [this] *)
  _canvas : option unit;            (* the canvas element, or [null] *)
  _size : number * number;
  _renderedScale : number;
  _lines : list string;
  _textAreaSize : Dimensions;
  _text : option string;            (* [undefined] until [setTextBubble] *)
  _bubbleType : string;
  _pointsLeft : bool;
  _textDirty : bool;
  _textureDirty : bool;
  _style : BubbleStyle;
  _texture : option WebGLTexture;   (* [null] until [getTexture] creates it *)
  (* what the skin shares with its collaborators *)
  canvas : Canvas;                  (* the element behind [_canvas] and behind
                                       the measurement provider's context *)
  cache : gmap string Q;            (* the measurement provider's memo table *)
  created : nat;                    (* texture objects the GL context made *)
  trace : list Event
}.

Definition set__canvas (v : option unit) (s : Skin) : Skin :=
  {| _canvas := v; _size := _size s; _renderedScale := _renderedScale s;
     _lines := _lines s; _textAreaSize := _textAreaSize s; _text := _text s;
     _bubbleType := _bubbleType s; _pointsLeft := _pointsLeft s;
     _textDirty := _textDirty s; _textureDirty := _textureDirty s;
     _style := _style s; _texture := _texture s; canvas := canvas s;
     cache := cache s; created := created s; trace := trace s |}.

Definition set__size (v : number * number) (s : Skin) : Skin :=
  {| _canvas := _canvas s; _size := v; _renderedScale := _renderedScale s;
     _lines := _lines s; _textAreaSize := _textAreaSize s; _text := _text s;
     _bubbleType := _bubbleType s; _pointsLeft := _pointsLeft s;
     _textDirty := _textDirty s; _textureDirty := _textureDirty s;
     _style := _style s; _texture := _texture s; canvas := canvas s;
     cache := cache s; created := created s; trace := trace s |}.

Definition set__renderedScale (v : number) (s : Skin) : Skin :=
  {| _canvas := _canvas s; _size := _size s; _renderedScale := v;
     _lines := _lines s; _textAreaSize := _textAreaSize s; _text := _text s;
     _bubbleType := _bubbleType s; _pointsLeft := _pointsLeft s;
     _textDirty := _textDirty s; _textureDirty := _textureDirty s;
     _style := _style s; _texture := _texture s; canvas := canvas s;
     cache := cache s; created := created s; trace := trace s |}.

Definition set__lines (v : list string) (s : Skin) : Skin :=
  {| _canvas := _canvas s; _size := _size s; _renderedScale := _renderedScale s;
     _lines := v; _textAreaSize := _textAreaSize s; _text := _text s;
     _bubbleType := _bubbleType s; _pointsLeft := _pointsLeft s;
     _textDirty := _textDirty s; _textureDirty := _textureDirty s;
     _style := _style s; _texture := _texture s; canvas := canvas s;
     cache := cache s; created := created s; trace := trace s |}.

Definition set__textAreaSize (v : Dimensions) (s : Skin) : Skin :=
  {| _canvas := _canvas s; _size := _size s; _renderedScale := _renderedScale s;
     _lines := _lines s; _textAreaSize := v; _text := _text s;
     _bubbleType := _bubbleType s; _pointsLeft := _pointsLeft s;
     _textDirty := _textDirty s; _textureDirty := _textureDirty s;
     _style := _style s; _texture := _texture s; canvas := canvas s;
     cache := cache s; created := created s; trace := trace s |}.

Definition set__text (v : option string) (s : Skin) : Skin :=
  {| _canvas := _canvas s; _size := _size s; _renderedScale := _renderedScale s;
     _lines := _lines s; _textAreaSize := _textAreaSize s; _text := v;
     _bubbleType := _bubbleType s; _pointsLeft := _pointsLeft s;
     _textDirty := _textDirty s; _textureDirty := _textureDirty s;
     _style := _style s; _texture := _texture s; canvas := canvas s;
     cache := cache s; created := created s; trace := trace s |}.

Definition set__bubbleType (v : string) (s : Skin) : Skin :=
  {| _canvas := _canvas s; _size := _size s; _renderedScale := _renderedScale s;
     _lines := _lines s; _textAreaSize := _textAreaSize s; _text := _text s;
     _bubbleType := v; _pointsLeft := _pointsLeft s;
     _textDirty := _textDirty s; _textureDirty := _textureDirty s;
     _style := _style s; _texture := _texture s; canvas := canvas s;
     cache := cache s; created := created s; trace := trace s |}.

Definition set__pointsLeft (v : bool) (s : Skin) : Skin :=
  {| _canvas := _canvas s; _size := _size s; _renderedScale := _renderedScale s;
     _lines := _lines s; _textAreaSize := _textAreaSize s; _text := _text s;
     _bubbleType := _bubbleType s; _pointsLeft := v;
     _textDirty := _textDirty s; _textureDirty := _textureDirty s;
     _style := _style s; _texture := _texture s; canvas := canvas s;
     cache := cache s; created := created s; trace := trace s |}.

Definition set__textDirty (v : bool) (s : Skin) : Skin :=
  {| _canvas := _canvas s; _size := _size s; _renderedScale := _renderedScale s;
     _lines := _lines s; _textAreaSize := _textAreaSize s; _text := _text s;
     _bubbleType := _bubbleType s; _pointsLeft := _pointsLeft s;
     _textDirty := v; _textureDirty := _textureDirty s;
     _style := _style s; _texture := _texture s; canvas := canvas s;
     cache := cache s; created := created s; trace := trace s |}.

Definition set__textureDirty (v : bool) (s : Skin) : Skin :=
  {| _canvas := _canvas s; _size := _size s; _renderedScale := _renderedScale s;
     _lines := _lines s; _textAreaSize := _textAreaSize s; _text := _text s;
     _bubbleType := _bubbleType s; _pointsLeft := _pointsLeft s;
     _textDirty := _textDirty s; _textureDirty := v;
     _style := _style s; _texture := _texture s; canvas := canvas s;
     cache := cache s; created := created s; trace := trace s |}.

Definition set__style (v : BubbleStyle) (s : Skin) : Skin :=
  {| _canvas := _canvas s; _size := _size s; _renderedScale := _renderedScale s;
     _lines := _lines s; _textAreaSize := _textAreaSize s; _text := _text s;
     _bubbleType := _bubbleType s; _pointsLeft := _pointsLeft s;
     _textDirty := _textDirty s; _textureDirty := _textureDirty s;
     _style := v; _texture := _texture s; canvas := canvas s;
     cache := cache s; created := created s; trace := trace s |}.

Definition set__texture (v : option WebGLTexture) (s : Skin) : Skin :=
  {| _canvas := _canvas s; _size := _size s; _renderedScale := _renderedScale s;
     _lines := _lines s; _textAreaSize := _textAreaSize s; _text := _text s;
     _bubbleType := _bubbleType s; _pointsLeft := _pointsLeft s;
     _textDirty := _textDirty s; _textureDirty := _textureDirty s;
     _style := _style s; _texture := v; canvas := canvas s;
     cache := cache s; created := created s; trace := trace s |}.

Definition set_canvas (v : Canvas) (s : Skin) : Skin :=
  {| _canvas := _canvas s; _size := _size s; _renderedScale := _renderedScale s;
     _lines := _lines s; _textAreaSize := _textAreaSize s; _text := _text s;
     _bubbleType := _bubbleType s; _pointsLeft := _pointsLeft s;
     _textDirty := _textDirty s; _textureDirty := _textureDirty s;
     _style := _style s; _texture := _texture s; canvas := v;
     cache := cache s; created := created s; trace := trace s |}.

Definition set_cache (v : gmap string Q) (s : Skin) : Skin :=
  {| _canvas := _canvas s; _size := _size s; _renderedScale := _renderedScale s;
     _lines := _lines s; _textAreaSize := _textAreaSize s; _text := _text s;
     _bubbleType := _bubbleType s; _pointsLeft := _pointsLeft s;
     _textDirty := _textDirty s; _textureDirty := _textureDirty s;
     _style := _style s; _texture := _texture s; canvas := canvas s;
     cache := v; created := created s; trace := trace s |}.

Definition set_created (v : nat) (s : Skin) : Skin :=
  {| _canvas := _canvas s; _size := _size s; _renderedScale := _renderedScale s;
     _lines := _lines s; _textAreaSize := _textAreaSize s; _text := _text s;
     _bubbleType := _bubbleType s; _pointsLeft := _pointsLeft s;
     _textDirty := _textDirty s; _textureDirty := _textureDirty s;
     _style := _style s; _texture := _texture s; canvas := canvas s;
     cache := cache s; created := v; trace := trace s |}.

Definition set_trace (v : list Event) (s : Skin) : Skin :=
  {| _canvas := _canvas s; _size := _size s; _renderedScale := _renderedScale s;
     _lines := _lines s; _textAreaSize := _textAreaSize s; _text := _text s;
     _bubbleType := _bubbleType s; _pointsLeft := _pointsLeft s;
     _textDirty := _textDirty s; _textureDirty := _textureDirty s;
     _style := _style s; _texture := _texture s; canvas := canvas s;
     cache := cache s; created := created s; trace := v |}.

(** ** The monad of methods: state, and a completion that may be abrupt *)

Inductive Error : Type := TypeError.

Inductive Completion (A : Type) : Type :=
| Normal (a : A)
| Throw (e : Error).
Arguments Normal {A} a.
Arguments Throw {A} e.

Definition M (A : Type) : Type := Skin -> Completion A * Skin.

Definition ret {A : Type} (a : A) : M A := fun s => (Normal a, s).

Definition bind {A B : Type} (m : M A) (k : A -> M B) : M B :=
  fun s =>
    match m s with
    | (Normal a, s') => k a s'
    | (Throw e, s') => (Throw e, s')
    end.

Declare Scope method_scope.
Delimit Scope method_scope with method.
Bind Scope method_scope with M.
Notation "x <- m ;; k" := (bind m (fun x => k))
  (at level 100, m at next level, k at level 200, right associativity) : method_scope.
Notation "m ;; k" := (bind m (fun _ => k))
  (at level 100, k at level 200, right associativity) : method_scope.
Local Open Scope method_scope.

Definition throw {A : Type} (e : Error) : M A := fun s => (Throw e, s).
Definition gets {A : Type} (f : Skin -> A) : M A := fun s => (Normal (f s), s).
Definition modify (f : Skin -> Skin) : M unit := fun s => (Normal tt, f s).
Definition when (b : bool) (m : M unit) : M unit := if b then m else ret tt.

(** The state a method leaves and the value it completes with. *)
Definition after {A : Type} (m : M A) (s : Skin) : Skin := snd (m s).
Definition completion {A : Type} (m : M A) (s : Skin) : Completion A := fst (m s).

(** A call to the platform, appended to the trace. *)
Definition emit (e : Event) : M unit :=
  modify (fun s => set_trace (trace s ++ [e]) s).

(** ** The methods of [TextBubbleSkin] *)

Section TextBubbleSkin.

(** The two collaborators whose code is not part of the skin.

    [native_measure font text] is the width the 2D context reports for
    [text] under [font] ([ctx.measureText(text).width], a finite number).

    [wrapper font memo maxWidth text] is the renderer's text wrapper, made
    by [renderer.createTextWrapper(this.measurementProvider)]: the lines
    it breaks [text] into, and the provider's memo table as its width
    queries leave it.  Like every call to a collaborator it is taken to
    return, also for the [undefined] text ([None]) of a skin that was never
    given one. *)
Variable native_measure : CanvasFont -> string -> Q.
Variable wrapper :
  CanvasFont -> gmap string Q -> number -> option string -> list string * gmap string Q.

(** [this._canvas.] : a [TypeError] once [dispose] made the field [null]. *)
Definition this_canvas : M unit :=
  c <- gets _canvas ;;
  match c with
  | Some _ => ret tt
  | None => throw TypeError
  end.

Definition ctx (c : ContextCall) : M unit := emit (Ctx c).

Definition canvas_set_width (n : number) : M unit :=
  this_canvas ;;
  modify (fun s => set_canvas {| canvas_width := reflected 300 n;
                                 canvas_height := canvas_height (canvas s);
                                 canvas_font := initial_font |} s) ;;
  emit (assign_canvas_width n).

Definition canvas_set_height (n : number) : M unit :=
  this_canvas ;;
  modify (fun s => set_canvas {| canvas_width := canvas_width (canvas s);
                                 canvas_height := reflected 150 n;
                                 canvas_font := initial_font |} s) ;;
  emit (assign_canvas_height n).

Definition canvas_get_width : M number :=
  this_canvas ;; gets (fun s => canvas_width (canvas s)).

Definition canvas_get_height : M number :=
  this_canvas ;; gets (fun s => canvas_height (canvas s)).

(** Modelled from the spec: [CanvasMeasurementProvider.measureText], whose
    file is not among the sources.  It "measures the pixel width of a line
    of text under the current font configuration" and keeps "a memoized
    width cache". *)
Definition measureText (text : string) : M number :=
  emit (call_measureText text) ;;
  memo <- gets cache ;;
  match memo !! text with
  | Some w => ret (Fin w)
  | None =>
      f <- gets (fun s => canvas_font (canvas s)) ;;
      let w := native_measure f text in
      modify (set_cache (<[text := w]> memo)) ;;
      ret (Fin w)
  end.

(** Modelled from the spec: [CanvasMeasurementProvider.clearCache], whose
    file is not among the sources: "supports clearing a memoized width
    cache". *)
Definition clearCache : M unit :=
  emit call_clearCache ;;
  modify (set_cache ∅).

(** [this.textWrapper.wrapText(maxWidth, text)] *)
Definition wrapText (maxWidth : number) (text : option string) : M (list string) :=
  emit (call_wrapText maxWidth text) ;;
  f <- gets (fun s => canvas_font (canvas s)) ;;
  memo <- gets cache ;;
  let (lines, memo') := wrapper f memo maxWidth text in
  modify (set_cache memo') ;;
  ret lines.

(** Modelled from the spec: [Skin.emitWasAltered], of the base class that is
    not among the sources: the "visual changed" notification. *)
Definition emitWasAltered : M unit := emit call_emitWasAltered.

(** Modelled from the spec: [Skin._setTexture], of the base class: "upload
    the pixel buffer, resizing the GPU resource to match"; the texture
    object is "replaced in place", so [_texture] keeps its value. *)
Definition _setTexture (textureData : ImageData) : M unit :=
  t <- gets _texture ;;
  emit (call_setTexture t textureData).

(** [twgl.createTexture(gl, {auto: false, wrap: gl.CLAMP_TO_EDGE})] *)
Definition createTexture : M WebGLTexture :=
  n <- gets created ;;
  modify (set_created (S n)) ;;
  emit (twgl_createTexture false CLAMP_TO_EDGE n) ;;
  ret n.

Definition _restyleCanvas : M unit :=
  this_canvas ;;
  style <- gets _style ;;
  let f := px_font (fontSize style) (font style) in
  modify (fun s => set_canvas {| canvas_width := canvas_width (canvas s);
                                 canvas_height := canvas_height (canvas s);
                                 canvas_font := f |} s) ;;
  ctx (ctx_font f).

(** The state [new TextBubbleSkin(id, renderer)] builds, [gl_created]
    being the number of textures the renderer's context made so far.
    The base constructor leaves [_texture] at [null]. *)
Definition constructor (gl_created : nat) : Skin :=
  after _restyleCanvas
    {| _canvas := Some tt;
       _size := (0, 0)%num;
       _renderedScale := 0;
       _lines := [];
       _textAreaSize := {| width := 0; height := 0 |};
       _text := None;
       _bubbleType := EmptyString;
       _pointsLeft := false;
       _textDirty := true;
       _textureDirty := true;
       _style := DEFAULT_BUBBLE_STYLE;
       _texture := None;
       canvas := {| canvas_width := 300; canvas_height := 150;
                    canvas_font := initial_font |};
       cache := ∅;
       created := gl_created;
       trace := [] |}.

Definition dispose : M unit :=
  t <- gets _texture ;;
  match t with
  | Some texture =>
      emit (gl_deleteTexture texture) ;;
      modify (set__texture None)
  | None => ret tt
  end ;;
  modify (set__canvas None) ;;
  emit super_dispose.

(** The body of the [for (const line of this._lines)] loop of
    [_reflowLines], over the lines still to visit. *)
Fixpoint measure_lines (lines : list string) (longestLineWidth : number) : M number :=
  match lines with
  | [] => ret longestLineWidth
  | line :: rest =>
      w <- measureText line ;;
      measure_lines rest (Math_max longestLineWidth w)
  end.

Definition _reflowLines : M unit :=
  style <- gets _style ;;
  text <- gets _text ;;
  lines <- wrapText (maxLineWidth style) text ;;
  modify (set__lines lines) ;;
  lines <- gets _lines ;;
  longestLineWidth <- measure_lines lines 0 ;;
  style <- gets _style ;;
  let paddedWidth := (Math_max longestLineWidth (minWidth style) + (padding style * 2))%num in
  let paddedHeight :=
    ((lineHeight style * number_of_nat (length lines)) + (padding style * 2))%num in
  modify (fun s => set__textAreaSize {| width := paddedWidth;
                                        height := height (_textAreaSize s) |} s) ;;
  modify (fun s => set__textAreaSize {| width := width (_textAreaSize s);
                                        height := paddedHeight |} s) ;;
  modify (fun s => set__size ((paddedWidth + strokeWidth style)%num, snd (_size s)) s) ;;
  modify (fun s => set__size
                     (fst (_size s),
                      (paddedHeight + strokeWidth style + tailHeight style)%num) s) ;;
  modify (set__textDirty false).

(** [get size ()] *)
Definition size : M (number * number) :=
  dirty <- gets _textDirty ;;
  when dirty _reflowLines ;;
  gets _size.

Definition setTextBubble (type text : string) (pointsLeft : bool) : M unit :=
  modify (set__text (Some text)) ;;
  modify (set__bubbleType type) ;;
  modify (set__pointsLeft pointsLeft) ;;
  modify (set__textDirty true) ;;
  modify (set__textureDirty true) ;;
  emitWasAltered.

Definition setStyle (newStyle : NewStyle) : M unit :=
  modify (fun s => set__style (Object_assign (_style s) newStyle) s) ;;
  clearCache ;;
  _restyleCanvas ;;
  modify (set__textDirty true) ;;
  modify (set__textureDirty true) ;;
  emitWasAltered.

(** The body of the [for (let lineNumber = 0; ...)] loop of
    [_renderTextBubble], over the lines from [lineNumber] on. *)
Fixpoint fill_lines (lines : list string) (lineNumber : nat) : M unit :=
  match lines with
  | [] => ret tt
  | line :: rest =>
      style <- gets _style ;;
      ctx (ctx_fillText line
             (padding style)
             (padding style + (lineHeight style * number_of_nat lineNumber) +
                (fontHeightRatio style * fontSize style))%num) ;;
      fill_lines rest (S lineNumber)
  end.

Definition _renderTextBubble (scale : number) : M unit :=
  this_canvas ;;
  dirty <- gets _textDirty ;;
  when dirty _reflowLines ;;
  paddedWidth <- gets (fun s => width (_textAreaSize s)) ;;
  paddedHeight <- gets (fun s => height (_textAreaSize s)) ;;
  style <- gets _style ;;
  sz <- gets _size ;;
  canvas_set_width (Math_ceil (fst sz * scale)) ;;
  sz <- gets _size ;;
  canvas_set_height (Math_ceil (snd sz * scale)) ;;
  _restyleCanvas ;;
  ctx (ctx_setTransform 1 0 0 1 0 0) ;;
  w <- canvas_get_width ;;
  h <- canvas_get_height ;;
  ctx (ctx_clearRect 0 0 w h) ;;
  ctx (ctx_scale scale scale) ;;
  ctx (ctx_translate (strokeWidth style * dec 0.5) (strokeWidth style * dec 0.5)) ;;
  ctx ctx_save ;;
  pointsLeft <- gets _pointsLeft ;;
  when pointsLeft (
    ctx (ctx_scale (-1) 1) ;;
    ctx (ctx_translate (- paddedWidth) 0)) ;;
  ctx ctx_beginPath ;;
  ctx (ctx_moveTo (cornerRadius style) paddedHeight) ;;
  ctx (ctx_arcTo 0 paddedHeight 0 (paddedHeight - cornerRadius style) (cornerRadius style)) ;;
  ctx (ctx_arcTo 0 0 paddedWidth 0 (cornerRadius style)) ;;
  ctx (ctx_arcTo paddedWidth 0 paddedWidth paddedHeight (cornerRadius style)) ;;
  ctx (ctx_arcTo paddedWidth paddedHeight (paddedWidth - cornerRadius style) paddedHeight
         (cornerRadius style)) ;;
  ctx ctx_save ;;
  ctx (ctx_translate (paddedWidth - cornerRadius style) paddedHeight) ;;
  bubbleType <- gets _bubbleType ;;
  (if String.eqb bubbleType "say" then
     ctx (ctx_bezierCurveTo 0 4 4 8 4 10) ;;
     ctx (ctx_arcTo 4 12 2 12 2) ;;
     ctx (ctx_bezierCurveTo (-1) 12 (-11) 8 (-16) 0) ;;
     ctx ctx_closePath
   else
     ctx (ctx_arc (-16) 0 4 0 Math_PI) ;;
     ctx ctx_closePath ;;
     ctx (ctx_moveTo (-7) (dec 7.25)) ;;
     ctx (ctx_arc (dec (-9.25)) (dec 7.25) (dec 2.25) 0 (Math_PI * 2)) ;;
     ctx (ctx_moveTo 0 (dec 9.5)) ;;
     ctx (ctx_arc (dec (-1.5)) (dec 9.5) (dec 1.5) 0 (Math_PI * 2))) ;;
  ctx ctx_restore ;;
  ctx (ctx_fillStyle (bubbleFill style)) ;;
  ctx (ctx_strokeStyle (bubbleStroke style)) ;;
  ctx (ctx_lineWidth (strokeWidth style)) ;;
  ctx ctx_stroke ;;
  ctx ctx_fill ;;
  ctx ctx_restore ;;
  ctx (ctx_fillStyle (textFill style)) ;;
  lines <- gets _lines ;;
  fill_lines lines 0 ;;
  modify (set__renderedScale scale).

(** The uniform scale [getTexture] renders at for the [scale] it is given
    ([None]: no argument, or any falsy one). *)
Definition requestedScale (scale : option (number * number)) : number :=
  let scaleMax :=
    match scale with
    | Some (s0, s1) => Math_max (Math_abs s0) (Math_abs s1)
    | None => 100%num
    end in
  Math_min MAX_SCALE (scaleMax / 100).

Definition getTexture (scale : option (number * number)) : M (option WebGLTexture) :=
  let requestedScale := requestedScale scale in
  dirty <- gets _textureDirty ;;
  rendered <- gets _renderedScale ;;
  when (dirty || (rendered !== requestedScale)%num) (
    _renderTextBubble requestedScale ;;
    modify (set__textureDirty false) ;;
    this_canvas ;;
    w <- canvas_get_width ;;
    h <- canvas_get_height ;;
    ctx (ctx_getImageData 0 0 w h) ;;
    let textureData := {| data_width := w; data_height := h |} in
    t <- gets _texture ;;
    match t with
    | None =>
        texture <- createTexture ;;
        modify (set__texture (Some texture))
    | Some _ => ret tt
    end ;;
    _setTexture textureData) ;;
  gets _texture.

(** [updateSilhouette (scale = [100, 100])]: the default takes the place of
    a missing argument. *)
Definition updateSilhouette (scale : option (number * number)) : M unit :=
  let scale := match scale with Some v => v | None => (100, 100)%num end in
  getTexture (Some scale) ;;
  ret tt.

End TextBubbleSkin.

(** ** Closed forms: what the loops and the recomputations amount to *)

Section ClosedForms.

Variable native_measure : CanvasFont -> string -> Q.
Variable wrapper :
  CanvasFont -> gmap string Q -> number -> option string -> list string * gmap string Q.

(** The widths [measureText] reports for [lines], in order, under the font
    [f] and starting from the memo table [memo]; and the table it leaves. *)
Fixpoint measure_all (f : CanvasFont) (memo : gmap string Q) (lines : list string)
  : list Q * gmap string Q :=
  match lines with
  | [] => ([], memo)
  | line :: rest =>
      match memo !! line with
      | Some w =>
          let (ws, memo') := measure_all f memo rest in (w :: ws, memo')
      | None =>
          let w := native_measure f line in
          let (ws, memo') := measure_all f (<[line := w]> memo) rest in (w :: ws, memo')
      end
  end.

(** The running maximum of [_reflowLines], which starts from [0]. *)
Definition longest (widths : list Q) : number :=
  fold_left Math_max (map Fin widths) 0%num.

(** The [fillText] calls for [lines], the first of them being line number
    [lineNumber]. *)
Fixpoint text_calls (style : BubbleStyle) (lines : list string) (lineNumber : nat)
  : list Event :=
  match lines with
  | [] => []
  | line :: rest =>
      Ctx (ctx_fillText line
             (padding style)
             (padding style + (lineHeight style * number_of_nat lineNumber) +
                (fontHeightRatio style * fontSize style))%num)
        :: text_calls style rest (S lineNumber)
  end.

(** The lines the wrapper returns in state [s], and the memo table it
    leaves. *)
Definition wrapped (s : Skin) : list string * gmap string Q :=
  wrapper (canvas_font (canvas s)) (cache s) (maxLineWidth (_style s)) (_text s).

(** The widths measured for the wrapped lines of [s], and the memo table
    after the wrapper and the measuring loop. *)
Definition measured (s : Skin) : list Q * gmap string Q :=
  measure_all (canvas_font (canvas s)) (snd (wrapped s)) (fst (wrapped s)).

Definition paddedWidth_of (s : Skin) : number :=
  (Math_max (longest (fst (measured s))) (minWidth (_style s)) + (padding (_style s) * 2))%num.

Definition paddedHeight_of (s : Skin) : number :=
  ((lineHeight (_style s) * number_of_nat (length (fst (wrapped s)))) +
     (padding (_style s) * 2))%num.

(** The state [_reflowLines] leaves. *)
Definition reflowed (s : Skin) : Skin :=
  {| _canvas := _canvas s;
     _size := ((paddedWidth_of s + strokeWidth (_style s))%num,
               (paddedHeight_of s + strokeWidth (_style s) + tailHeight (_style s))%num);
     _renderedScale := _renderedScale s;
     _lines := fst (wrapped s);
     _textAreaSize := {| width := paddedWidth_of s; height := paddedHeight_of s |};
     _text := _text s;
     _bubbleType := _bubbleType s;
     _pointsLeft := _pointsLeft s;
     _textDirty := false;
     _textureDirty := _textureDirty s;
     _style := _style s;
     _texture := _texture s;
     canvas := canvas s;
     cache := snd (measured s);
     created := created s;
     trace := trace s ++ call_wrapText (maxLineWidth (_style s)) (_text s)
                :: map call_measureText (fst (wrapped s)) |}.

(** The layout as a size query or a rasterization finds it: recomputed when
    the layout-dirty flag is set, as it stands otherwise. *)
Definition laid_out (s : Skin) : Skin :=
  if _textDirty s then reflowed s else s.

Definition body_path (style : BubbleStyle) (paddedWidth paddedHeight : number)
  : list ContextCall :=
  [ ctx_beginPath;
    ctx_moveTo (cornerRadius style) paddedHeight;
    ctx_arcTo 0 paddedHeight 0 (paddedHeight - cornerRadius style) (cornerRadius style);
    ctx_arcTo 0 0 paddedWidth 0 (cornerRadius style);
    ctx_arcTo paddedWidth 0 paddedWidth paddedHeight (cornerRadius style);
    ctx_arcTo paddedWidth paddedHeight (paddedWidth - cornerRadius style) paddedHeight
      (cornerRadius style);
    ctx_save;
    ctx_translate (paddedWidth - cornerRadius style) paddedHeight ]%num.

Definition tail_path (bubbleType : string) : list ContextCall :=
  if String.eqb bubbleType "say" then
    [ ctx_bezierCurveTo 0 4 4 8 4 10;
      ctx_arcTo 4 12 2 12 2;
      ctx_bezierCurveTo (-1) 12 (-11) 8 (-16) 0;
      ctx_closePath ]%num
  else
    [ ctx_arc (-16) 0 4 0 Math_PI;
      ctx_closePath;
      ctx_moveTo (-7) (dec 7.25);
      ctx_arc (dec (-9.25)) (dec 7.25) (dec 2.25) 0 (Math_PI * 2);
      ctx_moveTo 0 (dec 9.5);
      ctx_arc (dec (-1.5)) (dec 9.5) (dec 1.5) 0 (Math_PI * 2) ]%num.

(** From the [restore] that ends the tail to the fill style of the text. *)
Definition paint (style : BubbleStyle) : list ContextCall :=
  [ ctx_restore;
    ctx_fillStyle (bubbleFill style);
    ctx_strokeStyle (bubbleStroke style);
    ctx_lineWidth (strokeWidth style);
    ctx_stroke;
    ctx_fill;
    ctx_restore;
    ctx_fillStyle (textFill style) ].

Definition mirror (pointsLeft : bool) (paddedWidth : number) : list ContextCall :=
  if pointsLeft then [ ctx_scale (-1) 1; ctx_translate (- paddedWidth) 0 ]%num else [].

(** What [_renderTextBubble scale] assigns to the width and to the height of
    the canvas of [s], whose layout is up to date; and the extent the canvas
    then has. *)
Definition requested_width (scale : number) (s : Skin) : number :=
  Math_ceil (fst (_size s) * scale).
Definition requested_height (scale : number) (s : Skin) : number :=
  Math_ceil (snd (_size s) * scale).
Definition surface_width (scale : number) (s : Skin) : number :=
  reflected 300 (requested_width scale s).
Definition surface_height (scale : number) (s : Skin) : number :=
  reflected 150 (requested_height scale s).

Definition style_font (style : BubbleStyle) : CanvasFont :=
  px_font (fontSize style) (font style).

(** Every call one [_renderTextBubble scale] makes after the layout is up
    to date, in order. *)
Definition drawing (scale : number) (s : Skin) : list Event :=
  let style := _style s in
  let paddedWidth := width (_textAreaSize s) in
  let paddedHeight := height (_textAreaSize s) in
  [ assign_canvas_width (requested_width scale s);
    assign_canvas_height (requested_height scale s);
    Ctx (ctx_font (style_font style)) ]
  ++ map Ctx
       ([ ctx_setTransform 1 0 0 1 0 0;
          ctx_clearRect 0 0 (surface_width scale s) (surface_height scale s);
          ctx_scale scale scale;
          ctx_translate (strokeWidth style * dec 0.5) (strokeWidth style * dec 0.5);
          ctx_save ]%num
        ++ mirror (_pointsLeft s) paddedWidth
        ++ body_path style paddedWidth paddedHeight
        ++ tail_path (_bubbleType s)
        ++ paint style)
  ++ text_calls style (_lines s) 0.

(** The state [_renderTextBubble scale] leaves when [this._canvas] is
    there. *)
Definition rendered (scale : number) (s : Skin) : Skin :=
  let s1 := laid_out s in
  set__renderedScale scale
    (set_trace (trace s1 ++ drawing scale s1)
       (set_canvas {| canvas_width := surface_width scale s1;
                      canvas_height := surface_height scale s1;
                      canvas_font := style_font (_style s1) |} s1)).

(** The calls of the upload that follows a rasterization in [getTexture]. *)
Definition upload (s : Skin) : list Event :=
  let data := {| data_width := canvas_width (canvas s);
                 data_height := canvas_height (canvas s) |} in
  Ctx (ctx_getImageData 0 0 (canvas_width (canvas s)) (canvas_height (canvas s)))
    :: match _texture s with
       | Some t => [ call_setTexture (Some t) data ]
       | None => [ twgl_createTexture false CLAMP_TO_EDGE (created s);
                   call_setTexture (Some (created s)) data ]
       end.

(** Whether [getTexture] has to rasterize for the uniform scale [q]. *)
Definition stale (q : number) (s : Skin) : bool :=
  _textureDirty s || (_renderedScale s !== q)%num.

(** The state the upload leaves, [s] being the state after the
    rasterization. *)
Definition uploaded (s : Skin) : Skin :=
  set_trace (trace s ++ upload s)
    match _texture s with
    | Some _ => s
    | None => set__texture (Some (created s)) (set_created (S (created s)) s)
    end.

(** The state [getTexture scale] leaves when [this._canvas] is there. *)
Definition textured (scale : option (number * number)) (s : Skin) : Skin :=
  if stale (requestedScale scale) s
  then uploaded (set__textureDirty false (rendered (requestedScale scale) s))
  else s.

(** The calls a size query or a rasterization makes to bring the layout up
    to date. *)
Definition layout_calls (s : Skin) : list Event :=
  if _textDirty s
  then call_wrapText (maxLineWidth (_style s)) (_text s)
         :: map call_measureText (fst (wrapped s))
  else [].

End ClosedForms.

(** The state [setStyle newStyle] leaves when [this._canvas] is there. *)
Definition restyled (newStyle : NewStyle) (s : Skin) : Skin :=
  let style := Object_assign (_style s) newStyle in
  set__textureDirty true
    (set__textDirty true
       (set_trace (trace s ++ [ call_clearCache;
                                Ctx (ctx_font (style_font style));
                                call_emitWasAltered ])
          (set_canvas {| canvas_width := canvas_width (canvas s);
                         canvas_height := canvas_height (canvas s);
                         canvas_font := style_font style |}
             (set_cache ∅ (set__style style s))))).

(** ** Reading a trace *)

Fixpoint count (p : Event -> bool) (l : list Event) : nat :=
  match l with
  | [] => 0
  | e :: rest => (if p e then 1 else 0) + count p rest
  end.

(** Some event that satisfies [p] comes before some event that satisfies
    [q]. *)
Fixpoint precedes (p q : Event -> bool) (l : list Event) : bool :=
  match l with
  | [] => false
  | e :: rest => (p e && existsb q rest) || precedes p q rest
  end.

Definition is_canvas_width (e : Event) : bool :=
  match e with assign_canvas_width _ => true | _ => false end.
Definition is_setTexture (e : Event) : bool :=
  match e with call_setTexture _ _ => true | _ => false end.
Definition is_createTexture (e : Event) : bool :=
  match e with twgl_createTexture _ _ _ => true | _ => false end.
Definition is_deleteTexture (e : Event) : bool :=
  match e with gl_deleteTexture _ => true | _ => false end.
Definition is_wrapText (e : Event) : bool :=
  match e with call_wrapText _ _ => true | _ => false end.
Definition is_measureText (e : Event) : bool :=
  match e with call_measureText _ => true | _ => false end.
Definition is_emitWasAltered (e : Event) : bool :=
  match e with call_emitWasAltered => true | _ => false end.
Definition is_stroke (e : Event) : bool :=
  match e with Ctx ctx_stroke => true | _ => false end.
Definition is_fill (e : Event) : bool :=
  match e with Ctx ctx_fill => true | _ => false end.
Definition is_beginPath (e : Event) : bool :=
  match e with Ctx ctx_beginPath => true | _ => false end.

(** The calls that start a path or add to it. *)
Definition is_path_call (e : Event) : bool :=
  match e with
  | Ctx ctx_beginPath
  | Ctx (ctx_moveTo _ _)
  | Ctx (ctx_arcTo _ _ _ _ _)
  | Ctx (ctx_bezierCurveTo _ _ _ _ _ _)
  | Ctx ctx_closePath
  | Ctx (ctx_arc _ _ _ _ _) => true
  | _ => false
  end.

(** Rasterizations: [_renderTextBubble] assigns the canvas width once, and
    nothing else does.  Uploads: calls of [_setTexture]. *)
Definition rasterizations (l : list Event) : nat := count is_canvas_width l.
Definition uploads (l : list Event) : nat := count is_setTexture l.
Definition creations (l : list Event) : nat := count is_createTexture l.
Definition deletions (l : list Event) : nat := count is_deleteTexture l.
Definition layouts (l : list Event) : nat := count is_wrapText l.
Definition notifications (l : list Event) : nat := count is_emitWasAltered l.

(** The calls that fill and stroke the bubble's path, as [_renderTextBubble]
    makes them. *)
Definition painting (style : BubbleStyle) : list Event :=
  [ Ctx (ctx_fillStyle (bubbleFill style));
    Ctx (ctx_strokeStyle (bubbleStroke style));
    Ctx (ctx_lineWidth (strokeWidth style));
    Ctx ctx_stroke;
    Ctx ctx_fill ].

(** As the specification words it: in a sequence of calls, the path is
    filled before it is stroked. *)
Definition fills_before_stroking (l : list Event) : Prop :=
  precedes is_fill is_stroke l = true.

(** As the specification words it: two texture queries in a row, at one
    quantized scale, rasterize and upload exactly once in total and return
    the same texture. *)
Definition rasterizes_once_in_two_queries
  (native_measure : CanvasFont -> string -> Q)
  (wrapper : CanvasFont -> gmap string Q -> number -> option string ->
             list string * gmap string Q)
  (scale1 scale2 : option (number * number)) (s : Skin) : Prop :=
  requestedScale scale1 = requestedScale scale2 ->
  let s1 := after (getTexture native_measure wrapper scale1) s in
  let s2 := after (getTexture native_measure wrapper scale2) s1 in
  rasterizations (trace s2) = rasterizations (trace s) + 1 /\
  uploads (trace s2) = uploads (trace s) + 1 /\
  completion (getTexture native_measure wrapper scale1) s =
    completion (getTexture native_measure wrapper scale2) s1.

(** The keys of a style, each with the type of its value. *)
Inductive Key : Type -> Type :=
| key_maxLineWidth : Key number
| key_minWidth : Key number
| key_strokeWidth : Key number
| key_padding : Key number
| key_cornerRadius : Key number
| key_tailHeight : Key number
| key_font : Key string
| key_fontSize : Key number
| key_fontHeightRatio : Key number
| key_lineHeight : Key number
| key_bubbleFill : Key string
| key_bubbleStroke : Key string
| key_textFill : Key string.

(** [style[key]] *)
Definition property {A : Type} (key : Key A) (style : BubbleStyle) : A :=
  match key in Key T return T with
  | key_maxLineWidth => maxLineWidth style
  | key_minWidth => minWidth style
  | key_strokeWidth => strokeWidth style
  | key_padding => padding style
  | key_cornerRadius => cornerRadius style
  | key_tailHeight => tailHeight style
  | key_font => font style
  | key_fontSize => fontSize style
  | key_fontHeightRatio => fontHeightRatio style
  | key_lineHeight => lineHeight style
  | key_bubbleFill => bubbleFill style
  | key_bubbleStroke => bubbleStroke style
  | key_textFill => textFill style
  end.

(** [newStyle[key]], [None] when [newStyle] has no such key. *)
Definition new_property {A : Type} (key : Key A) (newStyle : NewStyle) : option A :=
  match key in Key T return option T with
  | key_maxLineWidth => new_maxLineWidth newStyle
  | key_minWidth => new_minWidth newStyle
  | key_strokeWidth => new_strokeWidth newStyle
  | key_padding => new_padding newStyle
  | key_cornerRadius => new_cornerRadius newStyle
  | key_tailHeight => new_tailHeight newStyle
  | key_font => new_font newStyle
  | key_fontSize => new_fontSize newStyle
  | key_fontHeightRatio => new_fontHeightRatio newStyle
  | key_lineHeight => new_lineHeight newStyle
  | key_bubbleFill => new_bubbleFill newStyle
  | key_bubbleStroke => new_bubbleStroke newStyle
  | key_textFill => new_textFill newStyle
  end.

(** [dispose], called [n] times in a row. *)
Fixpoint disposed_times (n : nat) (s : Skin) : Skin :=
  match n with
  | O => s
  | S n' => disposed_times n' (after dispose s)
  end.

(** What the owner of a skin may ask of it before it disposes of it. *)
Inductive Request : Type :=
| ask_setTextBubble (type text : string) (pointsLeft : bool)
| ask_setStyle (newStyle : NewStyle)
| ask_size
| ask_getTexture (scale : option (number * number)).

Section Requests.

Variable native_measure : CanvasFont -> string -> Q.
Variable wrapper :
  CanvasFont -> gmap string Q -> number -> option string -> list string * gmap string Q.

Definition perform (r : Request) : M unit :=
  match r with
  | ask_setTextBubble type text pointsLeft => setTextBubble type text pointsLeft
  | ask_setStyle newStyle => setStyle newStyle
  | ask_size => size native_measure wrapper ;; ret tt
  | ask_getTexture scale => getTexture native_measure wrapper scale ;; ret tt
  end.

(** The state after a sequence of requests, served in order. *)
Fixpoint serve (requests : list Request) (s : Skin) : Skin :=
  match requests with
  | [] => s
  | r :: rest => serve rest (after (perform r) s)
  end.

End Requests.

(** ** What the states a skin goes through have in common *)

Section Invariants.

Variable native_measure : CanvasFont -> string -> Q.
Variable wrapper :
  CanvasFont -> gmap string Q -> number -> option string -> list string * gmap string Q.

(** The layout is that of the text and of the style the skin has now:
    [_reflowLines], run on them from some state [memo] of the provider's
    memo table, computes the very lines, text area and size the skin
    holds. *)
Definition layout_current (s : Skin) : Prop :=
  exists memo,
    let s' := after (_reflowLines native_measure wrapper) (set_cache memo s) in
    _lines s = _lines s' /\ _textAreaSize s = _textAreaSize s' /\ _size s = _size s'.

(** The texture is that of the layout, the content and the style the skin
    has now: the layout is up to date, the texture object is there, the
    canvas has the extent the size was given at the recorded scale, and the
    last calls on record are the rasterization of the current lines, type,
    side and style at that scale, followed by its upload. *)
Definition texture_current (s : Skin) : Prop :=
  let w := canvas_width (canvas s) in
  let h := canvas_height (canvas s) in
  _textDirty s = false /\
  _texture s <> None /\
  w = reflected 300 (Math_ceil (fst (_size s) * _renderedScale s)) /\
  h = reflected 150 (Math_ceil (snd (_size s) * _renderedScale s)) /\
  exists earlier made,
    trace s = earlier ++ drawing (_renderedScale s) s
                ++ Ctx (ctx_getImageData 0 0 w h) :: made
                ++ [call_setTexture (_texture s) {| data_width := w; data_height := h |}] /\
    Forall (fun e => is_createTexture e = true) made.

Definition coherent (s : Skin) : Prop :=
  _canvas s <> None /\
  canvas_font (canvas s) = px_font (fontSize (_style s)) (font (_style s)) /\
  (_textDirty s = false -> layout_current s) /\
  (_textureDirty s = false -> texture_current s).

End Invariants.

(** The texture objects a trace creates, and those it deletes, in order. *)
Fixpoint created_textures (l : list Event) : list WebGLTexture :=
  match l with
  | [] => []
  | twgl_createTexture _ _ t :: rest => t :: created_textures rest
  | _ :: rest => created_textures rest
  end.

Fixpoint deleted_textures (l : list Event) : list WebGLTexture :=
  match l with
  | [] => []
  | gl_deleteTexture t :: rest => t :: deleted_textures rest
  | _ :: rest => deleted_textures rest
  end.

(** The depth of the context's stack of saved states after the calls of
    [l], from [depth]; [None] when a [restore] finds nothing saved. *)
Fixpoint stack_depth (l : list Event) (depth : nat) : option nat :=
  match l with
  | [] => Some depth
  | Ctx ctx_save :: rest => stack_depth rest (S depth)
  | Ctx ctx_restore :: rest =>
      match depth with
      | O => None
      | S d => stack_depth rest d
      end
  | _ :: rest => stack_depth rest depth
  end.

Definition is_fillText (e : Event) : bool :=
  match e with Ctx (ctx_fillText _ _ _) => true | _ => false end.
Definition is_save_or_restore (e : Event) : bool :=
  match e with Ctx ctx_save | Ctx ctx_restore => true | _ => false end.

(** The text and the abscissa of every [fillText] of a trace, in order. *)
Fixpoint filled (l : list Event) : list (string * number) :=
  match l with
  | [] => []
  | Ctx (ctx_fillText text x _) :: rest => (text, x) :: filled rest
  | _ :: rest => filled rest
  end.

(** ** A concrete environment, to run the methods *)

(** Every character is 7 pixels wide, whatever the font. *)
Definition monospace (f : CanvasFont) (text : string) : Q :=
  inject_Z (7 * Z.of_nat (String.length text)).

(** The words of [text], [word] being the one read so far. *)
Fixpoint words_from (word text : string) : list string :=
  match text with
  | EmptyString => [word]
  | String c rest =>
      if Ascii.eqb c " "%char
      then word :: words_from EmptyString rest
      else words_from (String.append word (String c EmptyString)) rest
  end.

(** A wrapper that breaks the text at every space and measures nothing. *)
Definition one_word_per_line
  (f : CanvasFont) (memo : gmap string Q) (maxWidth : number) (text : option string)
  : list string * gmap string Q :=
  (match text with Some t => words_from EmptyString t | None => [] end, memo).

(** A new skin that was told to say "Hello world". *)
Definition hello : Skin :=
  after (setTextBubble "say" "Hello world" false) (constructor 0).

(** The same skin once its texture was asked for at 100%. *)
Definition hello_textured : Skin :=
  after (getTexture monospace one_word_per_line (Some (100, 100)%num)) hello.

(** The same skin once it was disposed of. *)
Definition hello_disposed : Skin := after dispose hello_textured.

(** A new skin that was told to think one long word. *)
Definition long_word : Skin :=
  after (setTextBubble "think" "Supercalifragilistic" false) (constructor 0).

Arguments set__canvas v s /.
Arguments set__size v s /.
Arguments set__renderedScale v s /.
Arguments set__lines v s /.
Arguments set__textAreaSize v s /.
Arguments set__text v s /.
Arguments set__bubbleType v s /.
Arguments set__pointsLeft v s /.
Arguments set__textDirty v s /.
Arguments set__textureDirty v s /.
Arguments set__style v s /.
Arguments set__texture v s /.
Arguments set_canvas v s /.
Arguments set_cache v s /.
Arguments set_created v s /.
Arguments set_trace v s /.
Arguments ret {A} a s /.
Arguments throw {A} e s /.
Arguments gets {A} f s /.
Arguments modify f s /.
Arguments emit e s /.
Arguments nadd : simpl never.
Arguments nsub : simpl never.
Arguments nmul : simpl never.
Arguments ndiv : simpl never.
Arguments nneg : simpl never.
Arguments dec : simpl never.
Arguments binary64 : simpl never.
Arguments reflected : simpl never.
Arguments Math_abs : simpl never.
Arguments Math_max : simpl never.
Arguments Math_min : simpl never.
Arguments Math_ceil : simpl never.
Arguments Math_PI : simpl never.
Arguments strict_neq : simpl never.
Arguments requestedScale : simpl never.
Arguments measure_lines : simpl never.
Arguments fill_lines : simpl never.
Arguments _reflowLines : simpl never.
Arguments _renderTextBubble : simpl never.
Arguments getTexture : simpl never.

(** ** What the methods compute *)

Section Runs.

Variable native_measure : CanvasFont -> string -> Q.
Variable wrapper :
  CanvasFont -> gmap string Q -> number -> option string -> list string * gmap string Q.

Local Abbreviation measure_all := (measure_all native_measure).
Local Abbreviation wrapped := (wrapped wrapper).
Local Abbreviation reflowed := (reflowed native_measure wrapper).
Local Abbreviation laid_out := (laid_out native_measure wrapper).
Local Abbreviation rendered := (rendered native_measure wrapper).
Local Abbreviation textured := (textured native_measure wrapper).

Lemma measure_lines_run lines : forall longestLineWidth s,
  measure_lines native_measure lines longestLineWidth s =
    let (ws, memo') := measure_all (canvas_font (canvas s)) (cache s) lines in
    (Normal (fold_left Math_max (map Fin ws) longestLineWidth),
     set_cache memo' (set_trace (trace s ++ map call_measureText lines) s)).
Proof.
  induction lines as [|line rest IH]; intros longestLineWidth s.
  - destruct s. cbn. rewrite app_nil_r. reflexivity.
  - unfold measure_lines; fold measure_lines. cbn [measure_all].
    unfold bind at 1. unfold measureText. cbn.
    destruct (cache s !! line) as [w|] eqn:E; cbn; rewrite IH; cbn;
      destruct (measure_all _ _ rest) as [ws memo']; cbn;
      rewrite <- app_assoc; reflexivity.
Qed.

Lemma fill_lines_run lines : forall lineNumber s,
  fill_lines lines lineNumber s =
    (Normal tt, set_trace (trace s ++ text_calls (_style s) lines lineNumber) s).
Proof.
  induction lines as [|line rest IH]; intros lineNumber s.
  - destruct s. cbn. rewrite app_nil_r. reflexivity.
  - unfold fill_lines; fold fill_lines. cbn [text_calls]. unfold bind at 1. cbn.
    rewrite IH. cbn. rewrite <- app_assoc. reflexivity.
Qed.

Lemma _reflowLines_run s :
  _reflowLines native_measure wrapper s = (Normal tt, reflowed s).
Proof.
  unfold _reflowLines, reflowed, paddedWidth_of, paddedHeight_of, measured, wrapped, longest.
  unfold bind at 1. cbn. unfold bind at 1. cbn. unfold bind at 1.
  unfold wrapText. cbn.
  destruct (wrapper _ _ _ _) as [lines memo1] eqn:W. cbn.
  unfold bind at 1. rewrite measure_lines_run. cbn.
  destruct (measure_all _ _ lines) as [ws memo2] eqn:Ms. cbn.
  rewrite <- app_assoc. reflexivity.
Qed.

Lemma _renderTextBubble_run scale s :
  _canvas s <> None ->
  _renderTextBubble native_measure wrapper scale s = (Normal tt, rendered scale s).
Proof.
  intros live. unfold _renderTextBubble, rendered, laid_out, drawing.
  destruct s as [cv sz rs ls ta tx bt pl td xd st tex cn ch cr tr].
  cbn in live. destruct cv as [[]|]; [clear live | congruence].
  destruct td.
  - unfold bind at 1. cbn. unfold bind at 1. cbn. unfold bind at 1. cbn.
    rewrite _reflowLines_run. cbn.
    destruct pl; cbn; unfold tail_path; destruct (String.eqb bt "say"); cbn;
      unfold bind at 1; rewrite fill_lines_run; cbn;
      repeat rewrite <- app_assoc; reflexivity.
  - cbn.
    destruct pl; cbn; unfold tail_path; destruct (String.eqb bt "say"); cbn;
      unfold bind at 1; rewrite fill_lines_run; cbn;
      repeat rewrite <- app_assoc; reflexivity.
Qed.

Lemma _renderTextBubble_disposed scale s :
  _canvas s = None ->
  _renderTextBubble native_measure wrapper scale s = (Throw TypeError, s).
Proof.
  intros gone. unfold _renderTextBubble, bind, this_canvas. cbn. rewrite gone. reflexivity.
Qed.

Lemma getTexture_run scale s :
  _canvas s <> None ->
  getTexture native_measure wrapper scale s =
    (Normal (_texture (textured scale s)), textured scale s).
Proof.
  intros live. unfold getTexture, textured, stale. cbv zeta.
  generalize (requestedScale scale) as q. intros q.
  destruct s as [cv sz rs ls ta tx bt pl td xd st tex cn ch cr tr].
  cbn in live. destruct cv as [[]|]; [clear live | congruence].
  unfold bind at 1. cbn. unfold bind at 1. cbn. unfold bind at 1.
  destruct (xd || (rs !== q)%num); cbn; [| reflexivity].
  unfold bind at 1. rewrite _renderTextBubble_run by (cbn; congruence).
  unfold rendered, laid_out, uploaded, upload.
  destruct td; cbn; destruct tex; cbn; repeat rewrite <- app_assoc; reflexivity.
Qed.

Lemma getTexture_clean scale s :
  stale (requestedScale scale) s = false ->
  getTexture native_measure wrapper scale s = (Normal (_texture s), s).
Proof.
  unfold getTexture, stale. cbv zeta.
  generalize (requestedScale scale) as q. intros q clean. destruct s; cbn in clean.
  unfold bind at 1. cbn. unfold bind at 1. cbn. unfold bind at 1.
  rewrite clean. reflexivity.
Qed.

Lemma getTexture_disposed scale s :
  _canvas s = None ->
  stale (requestedScale scale) s = true ->
  getTexture native_measure wrapper scale s = (Throw TypeError, s).
Proof.
  unfold getTexture, stale. cbv zeta.
  generalize (requestedScale scale) as q. intros q gone dirty.
  destruct s; cbn in gone, dirty.
  unfold bind at 1. cbn. unfold bind at 1. cbn. unfold bind at 1.
  rewrite dirty. cbn. unfold bind at 1.
  rewrite _renderTextBubble_disposed by exact gone. reflexivity.
Qed.

End Runs.

(** ** Lemmas on traces and numbers *)

Example ndiv_500_100 : (500 / 100)%num = 5%num.
Proof. reflexivity. Qed.

(** Products and quotients are rounded as doubles are.  [7 / 100] is a
    little above 0.07 and its product by 100 a little above 7; [1 / 100] is
    a little above 0.01, yet its product by 100 rounds to 1. *)
Example seven_percent_of_100 : Math_ceil (100 * (7 / 100))%num = 8%num.
Proof. vm_compute. reflexivity. Qed.

Example one_percent_of_100 : Math_ceil (100 * (1 / 100))%num = 1%num.
Proof. vm_compute. reflexivity. Qed.

Example one_tenth_plus_two_tenths :
  (dec 0.1 + dec 0.2)%num = Fin (1351079888211149 # 4503599627370496).
Proof. vm_compute. reflexivity. Qed.

Example largest_double_doubled :
  (Fin (inject_Z (2 ^ 1023)) * 2)%num = Infinity false.
Proof. vm_compute. reflexivity. Qed.

(** What the canvas keeps of a width that is not a pixel count. *)
Example reflected_NaN : reflected 300 NaN = 0%num.
Proof. reflexivity. Qed.

Example reflected_negative : reflected 300 (-5)%num = 300%num.
Proof. reflexivity. Qed.

Example nan_differs_from_itself : (NaN !== NaN)%num = true.
Proof. reflexivity. Qed.

Lemma count_app p l1 l2 : count p (l1 ++ l2) = count p l1 + count p l2.
Proof. induction l1 as [|e l1 IH]; cbn; [reflexivity | rewrite IH; lia]. Qed.

Lemma count_map_none {A : Type} p (f : A -> Event) (l : list A) :
  (forall a, p (f a) = false) -> count p (map f l) = 0.
Proof. intros none. induction l as [|a l IH]; cbn; [reflexivity | now rewrite none, IH]. Qed.

Lemma count_text_calls p style lines : forall lineNumber,
  (forall t x y, p (Ctx (ctx_fillText t x y)) = false) ->
  count p (text_calls style lines lineNumber) = 0.
Proof.
  induction lines as [|line rest IH]; intros lineNumber none; cbn; [reflexivity |].
  now rewrite none, IH.
Qed.

Lemma existsb_map_none {A : Type} p (f : A -> Event) (l : list A) :
  (forall a, p (f a) = false) -> existsb p (map f l) = false.
Proof. intros none. induction l as [|a l IH]; cbn; [reflexivity | now rewrite none, IH]. Qed.

Lemma existsb_text_calls p style lines : forall lineNumber,
  (forall t x y, p (Ctx (ctx_fillText t x y)) = false) ->
  existsb p (text_calls style lines lineNumber) = false.
Proof.
  induction lines as [|line rest IH]; intros lineNumber none; cbn; [reflexivity |].
  now rewrite none, IH.
Qed.

Lemma precedes_app p q l1 l2 :
  precedes p q (l1 ++ l2) =
    precedes p q l1 || (existsb p l1 && existsb q l2) || precedes p q l2.
Proof.
  induction l1 as [|e l1 IH]; cbn; [reflexivity |].
  rewrite IH, existsb_app.
  destruct (p e), (existsb q l1), (existsb q l2), (precedes p q l1),
    (existsb p l1), (precedes p q l2); reflexivity.
Qed.

Lemma precedes_none_l p q l : existsb p l = false -> precedes p q l = false.
Proof.
  induction l as [|e l IH]; cbn; [reflexivity |].
  intros none. apply orb_false_iff in none as [pe pl]. now rewrite pe, IH.
Qed.

(** Rounding depends on the value of a rational, not on how it is written. *)
Lemma binary64_compat (a b : Q) : (a == b)%Q -> binary64 a = binary64 b.
Proof. intros same. unfold binary64. now rewrite (Qred_complete _ _ same). Qed.

Lemma two_to_positive e : (0 < two_to e)%Q.
Proof.
  destruct e as [|p|p]; unfold two_to, Qlt; cbn; lia.
Qed.

Lemma two_to_power e : (two_to e == 2 ^ e)%Q.
Proof.
  destruct e as [|p|p]; unfold two_to.
  - reflexivity.
  - rewrite Zpower_Qpower by lia. reflexivity.
  - change (2 ^ Z.neg p)%Q with (/ (2 ^ Z.pos p))%Q.
    rewrite <- (Zpower_Qpower 2 (Z.pos p)) by lia.
    rewrite <- Pos2Z.inj_pow. reflexivity.
Qed.

Lemma two_to_add a b : (two_to (a + b) == two_to a * two_to b)%Q.
Proof. rewrite !two_to_power. apply Qpower_plus. discriminate. Qed.

Lemma two_to_monotone a b : (a <= b)%Z -> (two_to a <= two_to b)%Q.
Proof.
  intros le. replace b with (a + (b - a))%Z by lia. rewrite two_to_add.
  rewrite <- (Qmult_1_r (two_to a)) at 1.
  apply Qmult_le_l; [apply two_to_positive |].
  assert (0 <= b - a)%Z as nonneg by lia.
  destruct (b - a)%Z as [|p|p]; try lia; unfold two_to.
  - discriminate.
  - change 1%Q with (inject_Z 1). rewrite <- Zle_Qle.
    pose proof (Z.pow_pos_nonneg 2 (Z.pos p)). lia.
Qed.

(** [binade] finds a power of two that is not above its argument. *)
Lemma binade_le (q : Q) : (0 < q)%Q -> (two_to (binade q) <= q)%Q.
Proof.
  intros positive. unfold binade.
  destruct (Qle_bool _ q) eqn:test; [now apply Qle_bool_iff |].
  destruct q as [n d]. cbn [Qnum Qden] in *.
  assert (0 < n)%Z as pn by (unfold Qlt in positive; cbn in positive; lia).
  replace (Z.log2 n - Z.log2 (Z.pos d) - 1)%Z
    with (Z.log2 n + - (Z.log2 (Z.pos d) + 1))%Z by lia.
  rewrite two_to_add.
  destruct (Z.log2_spec n pn) as (low & _).
  destruct (Z.log2_spec (Z.pos d) eq_refl) as (_ & high).
  pose proof (Z.log2_nonneg n) as ln. pose proof (Z.log2_nonneg (Z.pos d)) as ld.
  assert (two_to (Z.log2 n) <= inject_Z n)%Q as numerator.
  { unfold two_to. destruct (Z.log2 n); try lia; now rewrite <- Zle_Qle. }
  assert (two_to (- (Z.log2 (Z.pos d) + 1)) <= 1 # d)%Q as denominator.
  { replace (Z.succ (Z.log2 (Z.pos d))) with (Z.log2 (Z.pos d) + 1)%Z in high by lia.
    destruct (Z.log2 (Z.pos d) + 1)%Z as [|p|p] eqn:E; try lia.
    change (- Z.pos p)%Z with (Z.neg p). unfold two_to, Qle. cbn [Qnum Qden].
    rewrite Pos2Z.inj_pow. lia. }
  assert (n # d == inject_Z n * (1 # d))%Q as ->
    by (unfold Qeq, inject_Z, Qmult; cbn; lia).
  apply Qmult_le_compat_nonneg.
  - split; [apply Qlt_le_weak, two_to_positive | exact numerator].
  - split; [apply Qlt_le_weak, two_to_positive | exact denominator].
Qed.

Lemma nearest_even_close (q : Q) : (Qabs (inject_Z (nearest_even q) - q) <= 1 # 2)%Q.
Proof.
  unfold nearest_even.
  pose proof (Qfloor_le q) as low. pose proof (Qlt_floor q) as high.
  rewrite inject_Z_plus in high. change (inject_Z 1) with 1%Q in high.
  apply Qabs_Qle_condition.
  destruct (Qcompare_spec (q - inject_Z (Qfloor q)) (1 # 2)) as [half | less | more].
  - destruct (Z.even (Qfloor q)); [| rewrite inject_Z_plus; change (inject_Z 1) with 1%Q];
      split; lra.
  - split; lra.
  - rewrite inject_Z_plus; change (inject_Z 1) with 1%Q. split; lra.
Qed.

(** A significand taken at the exponent [e] is within half a unit in the
    last place, [2 ^ (e - 1)], of the value it stands for. *)
Lemma scaled_close (A : Q) (e : Z) :
  (Qabs (inject_Z (nearest_even (A * two_to (- e))) * two_to e - A) <= two_to (e - 1))%Q.
Proof.
  set (m := inject_Z (nearest_even (A * two_to (- e)))).
  pose proof (nearest_even_close (A * two_to (- e))) as close. fold m in close.
  pose proof (two_to_positive e) as positive.
  assert (two_to (- e) * two_to e == 1)%Q as inverse.
  { rewrite <- two_to_add. replace (- e + e)%Z with 0%Z by lia. reflexivity. }
  assert (m * two_to e - A == (m - A * two_to (- e)) * two_to e)%Q as ->.
  { assert ((m - A * two_to (- e)) * two_to e ==
            m * two_to e - A * (two_to (- e) * two_to e))%Q as -> by ring.
    rewrite inverse. ring. }
  rewrite Qabs_Qmult, (Qabs_pos (two_to e)) by now apply Qlt_le_weak.
  assert (two_to (e - 1) == (1 # 2) * two_to e)%Q as ->.
  { replace (e - 1)%Z with (-1 + e)%Z by lia. rewrite two_to_add. reflexivity. }
  apply Qmult_le_compat_r; [exact close | now apply Qlt_le_weak].
Qed.

Lemma Qabs_positive (q : Q) : Qeq_bool q 0 = false -> (0 < Qabs q)%Q.
Proof.
  intros nonzero. destruct q as [n d]. unfold Qeq_bool in nonzero. cbn in nonzero.
  apply Z.eqb_neq in nonzero. unfold Qabs, Qlt. cbn. lia.
Qed.

Lemma Qabs_signed (q : Q) :
  ((if Qnegative q then - Qabs q else Qabs q) == q)%Q.
Proof.
  destruct q as [n d]. unfold Qnegative, Qabs, Qopp, Qeq. cbn.
  destruct (Z.ltb_spec n 0); cbn; lia.
Qed.

(** Rounding is accurate: a finite result is within the relative error
    [2 ^ -53] of the exact value (within [2 ^ -1075] of it among the
    subnormal numbers), and only a magnitude of [2 ^ 1023] or more
    overflows. *)
Lemma binary64_accurate (a : Q) :
  match binary64 a with
  | Fin r => (Qabs (r - a) <= Qmax (Qabs a * two_to (-53)) (two_to (-1075)))%Q
  | Infinity _ => (two_to 1023 <= Qabs a)%Q
  | NaN => False
  end.
Proof.
  unfold binary64.
  pose proof (Qred_correct a) as same. set (q := Qred a) in *. clearbody q.
  destruct (Qeq_bool q 0) eqn:zero.
  { apply Qeq_bool_iff in zero. rewrite <- same, zero.
    eapply Qle_trans; [| apply Q.le_max_r].
    apply Qlt_le_weak, two_to_positive. }
  pose proof (Qabs_positive q zero) as positive.
  pose proof (binade_le (Qabs q) positive) as floor.
  set (b := binade (Qabs q)) in *. clearbody b.
  set (e := Z.max (b - 52) (-1074)).
  pose proof (scaled_close (Qabs q) e) as close.
  set (m := nearest_even (Qabs q * two_to (- e))) in *. clearbody m.
  destruct ((972 <=? e)%Z || (e =? 971)%Z && (m =? 2 ^ 53)%Z) eqn:overflow; rewrite <- same.
  - assert (971 <= e)%Z as large.
    { apply orb_true_iff in overflow as [over | edge]; [lia |].
      apply andb_true_iff in edge as [edge _]. lia. }
    eapply Qle_trans; [| exact floor]. apply two_to_monotone. lia.
  - rewrite Qred_correct.
    assert ((if Qnegative q then - inject_Z m else inject_Z m) * two_to e - q ==
            (if Qnegative q then - (inject_Z m * two_to e - Qabs q)
             else inject_Z m * two_to e - Qabs q))%Q as ->.
    { rewrite <- (Qabs_signed q) at 2. destruct (Qnegative q); ring. }
    assert (Qabs (if Qnegative q then - (inject_Z m * two_to e - Qabs q)
                  else inject_Z m * two_to e - Qabs q) ==
            Qabs (inject_Z m * two_to e - Qabs q))%Q as ->.
    { destruct (Qnegative q); [apply Qabs_opp | reflexivity]. }
    eapply Qle_trans; [exact close |].
    destruct (Z.max_spec (b - 52) (-1074)) as [(_ & which) | (_ & which)];
      fold e in which; rewrite which.
    + eapply Qle_trans; [| apply Q.le_max_r]. apply two_to_monotone. lia.
    + eapply Qle_trans; [| apply Q.le_max_l].
      replace (b - 52 - 1)%Z with (b + -53)%Z by lia. rewrite two_to_add.
      apply Qmult_le_compat_r; [exact floor | apply Qlt_le_weak, two_to_positive].
Qed.

(** Taking the least of a bound and a value does not spread values apart. *)
Lemma Qmin_close (c r x : Q) : (Qabs (Qmin c r - Qmin c x) <= Qabs (r - x))%Q.
Proof.
  apply Qabs_Qle_condition.
  destruct (Q.min_spec c r) as [(? & ->) | (? & ->)],
           (Q.min_spec c x) as [(? & ->) | (? & ->)];
    apply (Qabs_case (r - x)); intros; split; lra.
Qed.

Lemma nearest_even_nonneg (q : Q) : (0 <= q)%Q -> (0 <= nearest_even q)%Z.
Proof.
  intros nonneg. unfold nearest_even.
  assert (0 <= Qfloor q)%Z as floor.
  { change 0%Z with (Qfloor 0). now apply Qfloor_resp_le. }
  destruct (Qcompare _ _); [destruct (Z.even _) | |]; lia.
Qed.

(** Rounding keeps the sign: a non-negative rational rounds to a
    non-negative number, or overflows to the positive infinity. *)
Lemma binary64_nonneg (a : Q) :
  (0 <= a)%Q ->
  (exists r, binary64 a = Fin r /\ (0 <= r)%Q) \/ binary64 a = Infinity false.
Proof.
  intros nonneg. unfold binary64.
  assert (0 <= Qred a)%Q as nonneg' by now rewrite Qred_correct.
  destruct (Qeq_bool (Qred a) 0); [left; exists 0%Q; split; [reflexivity | apply Qle_refl] |].
  assert (Qnegative (Qred a) = false) as sign.
  { unfold Qnegative. apply Z.ltb_ge. unfold Qle in nonneg'. cbn in nonneg'. lia. }
  rewrite sign.
  match goal with |- context [if ?c then _ else _] => destruct c end; [now right |].
  left. eexists. split; [reflexivity |].
  rewrite Qred_correct. apply Qmult_le_0_compat.
  - change 0%Q with (inject_Z 0). rewrite <- Zle_Qle.
    apply nearest_even_nonneg, Qmult_le_0_compat; [apply Qabs_nonneg |].
    apply Qlt_le_weak, two_to_positive.
  - apply Qlt_le_weak, two_to_positive.
Qed.

(** The element keeps a pixel count as it is. *)
Lemma reflected_pixels default (pixels : Z) :
  (0 <= pixels <= 2147483647)%Z ->
  reflected default (number_of_Z pixels) = number_of_Z pixels.
Proof.
  intros range. unfold reflected, ToUint32, number_of_Z, inject_Z. cbn [Qnum Qden].
  rewrite Z.quot_1_r, Z.mod_small by lia.
  destruct (Z.leb_spec pixels 2147483647); [reflexivity | lia].
Qed.

Lemma nmul_comm a b : (a * b)%num = (b * a)%num.
Proof.
  destruct a as [|x|s], b as [|y|t]; try reflexivity.
  - apply binary64_compat, Qmult_comm.
  - unfold nmul. now rewrite xorb_comm.
Qed.

Lemma strict_neq_refl q : (Fin q !== Fin q)%num = false.
Proof. unfold strict_neq. now rewrite (proj2 (Qeq_bool_iff q q) (Qeq_refl q)). Qed.

(** The running maximum of [_reflowLines] is the greatest of its start and
    the widths. *)
Lemma running_max widths : forall a : Q,
  exists q, fold_left Math_max (map Fin widths) (Fin a) = Fin q /\
            (a <= q)%Q /\ Forall (fun w => (w <= q)%Q) widths /\
            (q = a \/ In q widths).
Proof.
  induction widths as [|w rest IH]; intros a; cbn [map fold_left].
  - exists a. repeat split; [apply Qle_refl | constructor | now left].
  - unfold Math_max at 2. destruct (Qle_bool a w) eqn:le.
    + apply Qle_bool_iff in le.
      destruct (IH w) as (q & run & lower & upper & attained).
      exists q. repeat split; try assumption.
      * eapply Qle_trans; eassumption.
      * constructor; assumption.
      * right. destruct attained as [-> | member]; [now left | now right].
    + assert (w <= a)%Q as le'.
      { destruct (Qlt_le_dec a w) as [lt | ge]; [| exact ge].
        apply Qlt_le_weak, Qle_bool_iff in lt. congruence. }
      destruct (IH a) as (q & run & lower & upper & attained).
      exists q. repeat split; try assumption.
      * constructor; [eapply Qle_trans; eassumption | assumption].
      * destruct attained as [-> | member]; [now left | right; now right].
Qed.

Lemma measure_all_length native_measure f lines : forall memo,
  length (fst (measure_all native_measure f memo lines)) = length lines.
Proof.
  induction lines as [|line rest IH]; intros memo; cbn; [reflexivity |].
  destruct (memo !! line).
  - specialize (IH memo). destruct (measure_all _ _ _ rest). cbn in *. now rewrite IH.
  - specialize (IH (<[line := native_measure f line]> memo)).
    destruct (measure_all _ _ _ rest). cbn in *. now rewrite IH.
Qed.

(** Every width the measuring loop obtains is the context's width of the
    line, or the width the memo table [memo0] holds for it. *)
Lemma measure_all_sources native_measure f lines : forall memo0 memo : gmap string Q,
  (forall k v, memo !! k = Some v -> v = native_measure f k \/ memo0 !! k = Some v) ->
  Forall2 (fun line w => w = native_measure f line \/ memo0 !! line = Some w)
    lines (fst (measure_all native_measure f memo lines)).
Proof.
  induction lines as [|line rest IH]; intros memo0 memo known; cbn; [constructor |].
  destruct (memo !! line) as [w|] eqn:hit.
  - specialize (IH memo0 memo known).
    destruct (measure_all _ _ _ rest). cbn in *.
    constructor; [now apply known | exact IH].
  - assert (forall k v, <[line := native_measure f line]> memo !! k = Some v ->
                        v = native_measure f k \/ memo0 !! k = Some v) as known'.
    { intros k v found. apply lookup_insert_Some in found as [[<- <-] | [_ found]].
      - now left.
      - now apply known. }
    specialize (IH memo0 _ known').
    destruct (measure_all _ _ _ rest). cbn in *.
    constructor; [now left | exact IH].
Qed.

(** ** The properties of the specification *)

Section Properties.

Variable native_measure : CanvasFont -> string -> Q.
Variable wrapper :
  CanvasFont -> gmap string Q -> number -> option string -> list string * gmap string Q.

Local Abbreviation _reflowLines := (_reflowLines native_measure wrapper).
Local Abbreviation _renderTextBubble := (_renderTextBubble native_measure wrapper).
Local Abbreviation getTexture := (getTexture native_measure wrapper).
Local Abbreviation size := (size native_measure wrapper).
Local Abbreviation measure_all := (measure_all native_measure).
Local Abbreviation wrapped := (wrapped wrapper).
Local Abbreviation reflowed := (reflowed native_measure wrapper).
Local Abbreviation laid_out := (laid_out native_measure wrapper).
Local Abbreviation rendered := (rendered native_measure wrapper).
Local Abbreviation textured := (textured native_measure wrapper).
Local Abbreviation layout_calls := (layout_calls wrapper).
Local Abbreviation perform := (perform native_measure wrapper).
Local Abbreviation serve := (serve native_measure wrapper).

Lemma laid_out_run s :
  (when (_textDirty s) _reflowLines) s = (Normal tt, laid_out s).
Proof.
  unfold laid_out. destruct (_textDirty s); cbn; [apply _reflowLines_run | reflexivity].
Qed.

Lemma laid_out_trace s : trace (laid_out s) = trace s ++ layout_calls s.
Proof.
  unfold laid_out, layout_calls. destruct (_textDirty s); cbn; [reflexivity |].
  now rewrite app_nil_r.
Qed.

Lemma laid_out_clean s : _textDirty (laid_out s) = false.
Proof. unfold laid_out. destruct (_textDirty s) eqn:dirty; [reflexivity | exact dirty]. Qed.

Lemma size_run s : size s = (Normal (_size (laid_out s)), laid_out s).
Proof.
  unfold size. unfold bind at 1. cbn. unfold bind at 1. rewrite laid_out_run. reflexivity.
Qed.

(** C3.  After [_reflowLines], whatever the style and the lines the wrapper
    returns: the text area is [max(longestLineWidth, minWidth) + 2*padding]
    wide and [lineHeight * lineCount + 2*padding] high, the total width
    adds [strokeWidth], the total height adds [strokeWidth + tailHeight];
    [longestLineWidth] is what the measuring loop ends with, the greatest
    width measured over the wrapped lines (the loop starts from 0, which it
    is when there is no line); each of these widths is the one the context
    reports for the line, or the one the provider's memo table held. *)
Theorem reflow_sizes (s : Skin) :
  let s' := after _reflowLines s in
  let style := _style s in
  let lines := _lines s' in
  let widths := fst (measure_all (canvas_font (canvas s)) (snd (wrapped s)) lines) in
  completion _reflowLines s = Normal tt /\
  lines = fst (wrapped s) /\
  completion (measure_lines native_measure lines 0%num)
    (after (wrapText wrapper (maxLineWidth style) (_text s)) s) = Normal (longest widths) /\
  Forall2 (fun line w => w = native_measure (canvas_font (canvas s)) line \/
                         snd (wrapped s) !! line = Some w) lines widths /\
  (exists q, longest widths = Fin q /\ (0 <= q)%Q /\
             Forall (fun w => (w <= q)%Q) widths /\ (q = 0%Q \/ In q widths)) /\
  width (_textAreaSize s') =
    (Math_max (longest widths) (minWidth style) + 2 * padding style)%num /\
  height (_textAreaSize s') =
    (lineHeight style * number_of_nat (length lines) + 2 * padding style)%num /\
  fst (_size s') = (width (_textAreaSize s') + strokeWidth style)%num /\
  snd (_size s') =
    (height (_textAreaSize s') + strokeWidth style + tailHeight style)%num /\
  _textDirty s' = false.
Proof.
  unfold after, completion. rewrite _reflowLines_run. cbn [fst snd].
  cbn [_lines _textAreaSize _size _textDirty reflowed width height].
  unfold paddedWidth_of, paddedHeight_of, measured.
  rewrite (nmul_comm 2 (padding (_style s))).
  repeat match goal with |- _ /\ _ => split end; try reflexivity.
  - rewrite measure_lines_run. unfold wrapText, wrapped, longest.
    unfold bind at 1. cbn.
    destruct (wrapper _ _ _ _) as [lines memo1]. cbn.
    destruct (measure_all _ _ lines). reflexivity.
  - apply measure_all_sources. auto.
  - apply (running_max _ 0).
Qed.

(** C4.  Two size queries in a row return the same pair; the second one
    changes nothing and calls neither the wrapper nor the measurer, so
    the layout is computed at most once over the two; and the layout-dirty
    flag is clear after the first. *)
Theorem size_is_cached (s : Skin) :
  let s1 := after size s in
  let s2 := after size s1 in
  completion size s = Normal (_size s1) /\
  completion size s1 = Normal (_size s1) /\
  s2 = s1 /\
  _textDirty s1 = false /\
  trace s1 = trace s ++ layout_calls s /\
  layouts (trace s1) = layouts (trace s) + (if _textDirty s then 1 else 0) /\
  layouts (trace s2) <= layouts (trace s) + 1.
Proof.
  unfold after, completion. rewrite size_run. cbn [fst snd]. rewrite size_run. cbn [fst snd].
  assert (laid_out (laid_out s) = laid_out s) as again.
  { unfold laid_out at 1. now rewrite laid_out_clean. }
  rewrite again.
  assert (layouts (trace (laid_out s)) = layouts (trace s) + (if _textDirty s then 1 else 0))
    as once.
  { rewrite laid_out_trace. unfold layouts, layout_calls. rewrite count_app.
    destruct (_textDirty s); cbn; [| reflexivity].
    now rewrite count_map_none. }
  repeat split; try reflexivity.
  - apply laid_out_clean.
  - apply laid_out_trace.
  - exact once.
  - rewrite once. destruct (_textDirty s); lia.
Qed.

(** C8.  [setTextBubble] replaces the three content fields, sets both dirty
    flags and sends the notification; the memo table of the measurement
    provider, the style and everything else stay as they were. *)
Theorem setTextBubble_replaces_content (type text : string) (pointsLeft : bool) (s : Skin) :
  let s' := after (setTextBubble type text pointsLeft) s in
  completion (setTextBubble type text pointsLeft) s = Normal tt /\
  _text s' = Some text /\ _bubbleType s' = type /\ _pointsLeft s' = pointsLeft /\
  _textDirty s' = true /\ _textureDirty s' = true /\
  trace s' = trace s ++ [call_emitWasAltered] /\
  cache s' = cache s /\ _style s' = _style s /\
  canvas s' = canvas s /\ _canvas s' = _canvas s /\ _texture s' = _texture s /\
  _renderedScale s' = _renderedScale s /\ _size s' = _size s /\
  _lines s' = _lines s /\ _textAreaSize s' = _textAreaSize s /\ created s' = created s.
Proof. cbn. repeat split. Qed.

Lemma dispose_run s :
  dispose s =
    (Normal tt,
     set_trace (trace s ++ match _texture s with
                           | Some t => [gl_deleteTexture t]
                           | None => []
                           end ++ [super_dispose])
       (set__canvas None (set__texture None s))).
Proof.
  unfold dispose. destruct s as [cv sz rs ls ta tx bt pl td xd st tex cn ch cr tr].
  unfold bind at 1. cbn. destruct tex; cbn; [rewrite <- app_assoc |]; reflexivity.
Qed.

Lemma disposed_times_deletions n : forall s,
  deletions (trace (disposed_times n s)) =
    deletions (trace s) + match n, _texture s with
                          | S _, Some _ => 1
                          | _, _ => 0
                          end.
Proof.
  induction n as [|n IH]; intros s; cbn [disposed_times]; [lia |].
  rewrite IH. unfold after. rewrite dispose_run. cbn.
  unfold deletions. rewrite !count_app.
  destruct (_texture s), n; cbn; lia.
Qed.

(** C10.  [dispose] calls [gl.deleteTexture] only when [_texture] holds a
    texture, and leaves the field [null]; a second [dispose] deletes
    nothing, and however many times [dispose] is called in a row the
    texture is deleted at most once. *)
Theorem dispose_deletes_at_most_once (s : Skin) :
  let s1 := after dispose s in
  let s2 := after dispose s1 in
  completion dispose s = Normal tt /\
  trace s1 = trace s ++ match _texture s with
                        | Some t => [gl_deleteTexture t]
                        | None => []
                        end ++ [super_dispose] /\
  _texture s1 = None /\
  _canvas s1 = None /\
  trace s2 = trace s1 ++ [super_dispose] /\
  deletions (trace s2) = deletions (trace s1) /\
  forall n, deletions (trace (disposed_times n s)) <= deletions (trace s) + 1.
Proof.
  unfold after, completion. rewrite !dispose_run. cbn.
  repeat split.
  - unfold deletions. rewrite (count_app _ _ [super_dispose]). cbn. lia.
  - intros n. rewrite disposed_times_deletions. destruct n, (_texture s); lia.
Qed.

Lemma Math_max_finite (x y : Q) :
  exists a, Math_max (Fin x) (Fin y) = Fin a /\ (a == Qmax x y)%Q.
Proof.
  unfold Math_max. destruct (Qle_bool x y) eqn:le.
  - exists y. split; [reflexivity |].
    apply Qle_bool_iff in le. symmetry. now apply Q.max_r.
  - exists x. split; [reflexivity |].
    symmetry. apply Q.max_l.
    destruct (Qlt_le_dec x y) as [lt | ge]; [| exact ge].
    apply Qlt_le_weak, Qle_bool_iff in lt. congruence.
Qed.

Lemma Math_min_finite (x y : Q) :
  exists a, Math_min (Fin x) (Fin y) = Fin a /\ (a == Qmin x y)%Q.
Proof.
  unfold Math_min. destruct (Qle_bool x y) eqn:le.
  - exists x. split; [reflexivity |].
    apply Qle_bool_iff in le. symmetry. now apply Q.min_l.
  - exists y. split; [reflexivity |].
    symmetry. apply Q.min_r.
    destruct (Qlt_le_dec x y) as [lt | ge]; [| exact ge].
    apply Qlt_le_weak, Qle_bool_iff in lt. congruence.
Qed.

Lemma ndiv_100 (a : Q) : (Fin a / 100)%num = binary64 (a / 100).
Proof. reflexivity. Qed.

Lemma requestedScale_rounds (x y : Q) :
  requestedScale (Some (Fin x, Fin y)) =
    Math_min 10 (binary64 (Qmax (Qabs x) (Qabs y) / 100)).
Proof.
  unfold requestedScale, MAX_SCALE, Math_abs.
  destruct (Math_max_finite (Qabs x) (Qabs y)) as (a & -> & max).
  rewrite ndiv_100. f_equal. apply binary64_compat. now rewrite max.
Qed.

Lemma requestedScale_finite (x y : Q) :
  let exact := (Qmax (Qabs x) (Qabs y) / 100)%Q in
  exists q, requestedScale (Some (Fin x, Fin y)) = Fin q /\
            match binary64 exact with
            | Fin r => (q == Qmin 10 r)%Q
            | _ => (q == 10)%Q
            end /\
            (Qabs (q - Qmin 10 exact) <= Qmax (exact * two_to (-53)) (two_to (-1075)))%Q /\
            (0 <= q <= 10)%Q.
Proof.
  cbv zeta. rewrite requestedScale_rounds.
  set (exact := (Qmax (Qabs x) (Qabs y) / 100)%Q).
  assert (0 <= exact)%Q as nonneg.
  { apply Qle_shift_div_l; [reflexivity |]. rewrite Qmult_0_l.
    eapply Qle_trans; [apply (Qabs_nonneg x) | apply Q.le_max_l]. }
  pose proof (binary64_accurate exact) as accurate.
  destruct (binary64_nonneg _ nonneg) as [(r & value & sign) | value];
    rewrite value in accurate |- *; cbv iota in accurate;
    rewrite (Qabs_pos exact nonneg) in accurate.
  - destruct (Math_min_finite 10 r) as (q & -> & least).
    exists q. split; [reflexivity |]. split; [exact least |]. rewrite least. split.
    + eapply Qle_trans; [apply Qmin_close | exact accurate].
    + split; [apply Q.min_glb; [discriminate | exact sign] | apply Q.le_min_l].
  - exists 10%Q. split; [reflexivity |]. split; [reflexivity |].
    split; [| split; [discriminate | apply Qle_refl]].
    assert (10 <= exact)%Q as large.
    { eapply Qle_trans; [| exact accurate].
      eapply Qle_trans; [| apply (two_to_monotone 4 1023); lia]. discriminate. }
    rewrite (Q.min_l 10 exact large).
    assert (10 - 10 == 0)%Q as -> by ring.
    eapply Qle_trans; [| apply Q.le_max_r]. apply Qlt_le_weak, two_to_positive.
Qed.

(** C2.  The scale [getTexture] renders at is
    [min(10, max(|x|, |y|) / 100)], the quotient being the double nearest
    to the exact one, which is within the relative error [2 ^ -53] of it;
    without a vector it is that of [(100, 100)], which is 1; [(500, 1)],
    [(1, 500)] and [(500, 500)] give 5 and [(2000, 2000)] gives 10; and it
    is the scale a new skin's texture is recorded to be rendered at. *)
Theorem requestedScale_quantizes :
  (forall x y : number,
     requestedScale (Some (x, y)) =
       Math_min MAX_SCALE (Math_max (Math_abs x) (Math_abs y) / 100)%num) /\
  (forall x y : Q,
     let exact := (Qmax (Qabs x) (Qabs y) / 100)%Q in
     exists q, requestedScale (Some (Fin x, Fin y)) = Fin q /\
               match binary64 exact with
               | Fin r => (q == Qmin 10 r)%Q
               | _ => (q == 10)%Q
               end /\
               (Qabs (q - Qmin 10 exact) <= Qmax (exact * two_to (-53)) (two_to (-1075)))%Q) /\
  requestedScale None = requestedScale (Some (100, 100)%num) /\
  requestedScale None = 1%num /\
  requestedScale (Some (500, 1)%num) = 5%num /\
  requestedScale (Some (1, 500)%num) = 5%num /\
  requestedScale (Some (500, 500)%num) = 5%num /\
  requestedScale (Some (2000, 2000)%num) = 10%num /\
  (forall scale gl_created,
     _renderedScale (after (getTexture scale) (constructor gl_created)) =
       requestedScale scale).
Proof.
  repeat split; try reflexivity.
  - intros x y. destruct (requestedScale_finite x y) as (q & run & value & close & _).
    exists q. exact (conj run (conj value close)).
  - intros scale gl_created. unfold after.
    rewrite getTexture_run by (cbn; congruence).
    unfold textured, stale. cbn. reflexivity.
Qed.

Lemma setStyle_run newStyle s :
  _canvas s <> None ->
  setStyle newStyle s = (Normal tt, restyled newStyle s).
Proof.
  intros live. unfold setStyle, restyled.
  destruct s as [cv sz rs ls ta tx bt pl td xd st tex cn ch cr tr].
  cbn in live. destruct cv as [[]|]; [clear live | congruence].
  cbn. unfold emitWasAltered. cbn. repeat rewrite <- app_assoc. reflexivity.
Qed.

Lemma count_drawing p scale s :
  (forall c, p (Ctx c) = false) ->
  count p (drawing scale s) =
    count p [assign_canvas_width (requested_width scale s);
             assign_canvas_height (requested_height scale s)].
Proof.
  intros none. unfold drawing. rewrite !count_app.
  rewrite count_map_none by exact none.
  rewrite count_text_calls by (intros; apply none).
  cbn. rewrite none. lia.
Qed.

Lemma count_layout_calls p s :
  (forall t, p (call_measureText t) = false) ->
  count p (layout_calls s) =
    if _textDirty s
    then count p [call_wrapText (maxLineWidth (_style s)) (_text s)]
    else 0.
Proof.
  intros none. unfold layout_calls. destruct (_textDirty s); cbn; [| reflexivity].
  rewrite count_map_none by exact none. reflexivity.
Qed.

(** The calls one stale [getTexture] makes. *)
Lemma textured_trace scale s :
  stale (requestedScale scale) s = true ->
  trace (textured scale s) =
    trace s ++ layout_calls s ++ drawing (requestedScale scale) (laid_out s)
      ++ upload (rendered (requestedScale scale) s).
Proof.
  intros dirty. unfold textured. rewrite dirty. clear dirty.
  generalize (requestedScale scale) as q. intros q.
  unfold uploaded, upload, rendered, layout_calls, laid_out.
  destruct s as [cv sz rs ls ta tx bt pl td xd st tex cn ch cr tr].
  destruct td, tex; cbn;
    repeat (rewrite <- app_assoc || rewrite <- app_comm_cons); reflexivity.
Qed.

Lemma textured_fields scale s :
  let s' := textured scale s in
  _canvas s' = _canvas s /\
  _style s' = _style s /\
  _texture s' = match _texture s with
                | Some t => Some t
                | None => if stale (requestedScale scale) s then Some (created s) else None
                end /\
  (stale (requestedScale scale) s = true ->
   _textureDirty s' = false /\ _renderedScale s' = requestedScale scale).
Proof.
  unfold textured, uploaded, rendered, laid_out.
  destruct (stale (requestedScale scale) s) eqn:dirty.
  - destruct s as [cv sz rs ls ta tx bt pl td xd st tex cn ch cr tr].
    destruct td, tex; cbn; repeat split.
  - destruct (_texture s); repeat split; discriminate.
Qed.

(** What any [getTexture] adds to a count that no call on the 2D context
    and no measurement enters. *)
Lemma count_getTexture p scale s :
  (forall c, p (Ctx c) = false) ->
  (forall t, p (call_measureText t) = false) ->
  _canvas s <> None ->
  count p (trace (after (getTexture scale) s)) =
    count p (trace s) +
    if stale (requestedScale scale) s
    then count p (layout_calls s)
         + count p [assign_canvas_width (requested_width (requestedScale scale) (laid_out s));
                    assign_canvas_height (requested_height (requestedScale scale) (laid_out s))]
         + count p (upload (rendered (requestedScale scale) s))
    else 0.
Proof.
  intros no_ctx no_measure live. unfold after. rewrite getTexture_run by exact live.
  cbn [snd]. destruct (stale (requestedScale scale) s) eqn:dirty.
  - rewrite textured_trace by exact dirty. rewrite !count_app.
    rewrite count_drawing by exact no_ctx. lia.
  - unfold textured. rewrite dirty. lia.
Qed.

Lemma rendered_fields scale s :
  let s' := rendered scale s in
  _canvas s' = _canvas s /\ _texture s' = _texture s /\
  _textureDirty s' = _textureDirty s /\ _style s' = _style s /\
  created s' = created s /\ _textDirty s' = false /\
  _renderedScale s' = scale /\
  canvas s' = {| canvas_width := reflected 300 (Math_ceil (fst (_size (laid_out s)) * scale));
                 canvas_height := reflected 150 (Math_ceil (snd (_size (laid_out s)) * scale));
                 canvas_font := px_font (fontSize (_style s)) (font (_style s)) |}.
Proof.
  unfold rendered, laid_out.
  destruct s as [cv sz rs ls ta tx bt pl td xd st tex cn ch cr tr].
  destruct td; cbn; repeat split.
Qed.

Lemma rasterizations_getTexture scale s :
  _canvas s <> None ->
  rasterizations (trace (after (getTexture scale) s)) =
    rasterizations (trace s) + if stale (requestedScale scale) s then 1 else 0.
Proof.
  intros live. unfold rasterizations.
  rewrite count_getTexture by (exact live || reflexivity).
  rewrite count_layout_calls by reflexivity.
  unfold upload.
  destruct (stale (requestedScale scale) s); [| lia].
  destruct (_textDirty s), (_texture (rendered (requestedScale scale) s)); cbn; lia.
Qed.

Lemma uploads_getTexture scale s :
  _canvas s <> None ->
  uploads (trace (after (getTexture scale) s)) =
    uploads (trace s) + if stale (requestedScale scale) s then 1 else 0.
Proof.
  intros live. unfold uploads.
  rewrite count_getTexture by (exact live || reflexivity).
  rewrite count_layout_calls by reflexivity.
  unfold upload.
  destruct (stale (requestedScale scale) s); [| lia].
  destruct (_textDirty s), (_texture (rendered (requestedScale scale) s)); cbn; lia.
Qed.

Lemma creations_getTexture scale s :
  _canvas s <> None ->
  creations (trace (after (getTexture scale) s)) =
    creations (trace s) +
    match _texture s with
    | None => if stale (requestedScale scale) s then 1 else 0
    | Some _ => 0
    end.
Proof.
  intros live. unfold creations.
  rewrite count_getTexture by (exact live || reflexivity).
  rewrite count_layout_calls by reflexivity.
  unfold upload.
  destruct (rendered_fields (requestedScale scale) s) as (_ & -> & _).
  destruct (stale (requestedScale scale) s), (_textDirty s), (_texture s); cbn; lia.
Qed.

(** [getTexture] never sends the notification, [this._canvas] being there
    or not. *)
Lemma notifications_getTexture scale s :
  notifications (trace (after (getTexture scale) s)) = notifications (trace s).
Proof.
  destruct (stale (requestedScale scale) s) eqn:dirty.
  - destruct (_canvas s) as [c|] eqn:cv.
    + unfold notifications.
      rewrite count_getTexture by (congruence || reflexivity).
      rewrite dirty, count_layout_calls by reflexivity.
      unfold upload.
      destruct (_textDirty s), (_texture (rendered (requestedScale scale) s)); cbn; lia.
    + unfold after. now rewrite getTexture_disposed.
  - unfold after. now rewrite getTexture_clean.
Qed.


(** C6.  Every [setTextBubble] and every [setStyle] sends the notification
    exactly once, as the last thing it does and whatever its arguments;
    [get size] and [getTexture] never send it. *)
Theorem notification_on_mutation_only (s : Skin) :
  (forall type text pointsLeft,
     let s' := after (setTextBubble type text pointsLeft) s in
     notifications (trace s') = notifications (trace s) + 1 /\
     trace s' = trace s ++ [call_emitWasAltered]) /\
  (forall newStyle,
     _canvas s <> None ->
     let s' := after (setStyle newStyle) s in
     notifications (trace s') = notifications (trace s) + 1 /\
     exists calls, trace s' = trace s ++ calls ++ [call_emitWasAltered] /\
                   notifications calls = 0) /\
  notifications (trace (after size s)) = notifications (trace s) /\
  (forall scale,
     notifications (trace (after (getTexture scale) s)) = notifications (trace s)).
Proof.
  repeat split.
  - cbn. unfold notifications. rewrite count_app. reflexivity.
  - unfold after. rewrite setStyle_run by assumption. cbn.
    unfold notifications. rewrite count_app. reflexivity.
  - unfold after. rewrite setStyle_run by assumption. cbn.
    eexists [call_clearCache; Ctx _]. split; reflexivity.
  - unfold after. rewrite size_run. cbn [snd]. rewrite laid_out_trace.
    unfold notifications. rewrite count_app, count_layout_calls by reflexivity.
    destruct (_textDirty s); cbn; lia.
  - intros scale. apply notifications_getTexture.
Qed.

Lemma rendered_textureDirty scale dirty s :
  rendered scale (set__textureDirty dirty s) = set__textureDirty dirty (rendered scale s).
Proof.
  unfold rendered, laid_out.
  destruct s as [cv sz rs ls ta tx bt pl td xd st tex cn ch cr tr].
  destruct td; reflexivity.
Qed.

Lemma rendered_trace scale s :
  trace (rendered scale s) = trace s ++ layout_calls s ++ drawing scale (laid_out s).
Proof.
  unfold rendered. cbn. rewrite laid_out_trace. now rewrite <- app_assoc.
Qed.

Lemma laid_out_style s : _style (laid_out s) = _style s.
Proof. unfold laid_out. destruct (_textDirty s); reflexivity. Qed.

(** C9.  [_renderTextBubble] never looks at the texture-dirty flag: with
    the flag set or clear it does the same work, and leaves the flag as it
    was.  It first brings the layout up to date (by [_reflowLines], when
    the layout-dirty flag is set), then assigns [ceil(width * scale)] and
    [ceil(height * scale)] of the total size, the products rounded as the
    engine rounds them, to the width and the height of the canvas, which
    has exactly that extent whenever the two are pixel counts an element
    can hold (whole numbers from 0 to [2 ^ 31 - 1]), sets the context's
    font again, and in the end records the scale. *)
Theorem renderTextBubble_unconditional (scale : number) (s : Skin) :
  _canvas s <> None ->
  let s1 := after (when (_textDirty s) _reflowLines) s in
  let s' := after (_renderTextBubble scale) s in
  let w := Math_ceil (fst (_size s1) * scale) in
  let h := Math_ceil (snd (_size s1) * scale) in
  let f := px_font (fontSize (_style s)) (font (_style s)) in
  completion (_renderTextBubble scale) s = Normal tt /\
  (forall dirty,
     _renderTextBubble scale (set__textureDirty dirty s) =
       (Normal tt, set__textureDirty dirty s')) /\
  _textureDirty s' = _textureDirty s /\
  rasterizations (trace s') = rasterizations (trace s) + 1 /\
  _textDirty s1 = false /\
  (exists drawn,
     trace s' = trace s1 ++ assign_canvas_width w :: assign_canvas_height h
                  :: Ctx (ctx_font f) :: drawn) /\
  canvas s' = {| canvas_width := reflected 300 w; canvas_height := reflected 150 h;
                 canvas_font := f |} /\
  (forall columns rows : Z,
     (0 <= columns <= 2147483647)%Z -> (0 <= rows <= 2147483647)%Z ->
     w = number_of_Z columns -> h = number_of_Z rows ->
     canvas s' = {| canvas_width := w; canvas_height := h; canvas_font := f |}) /\
  _renderedScale s' = scale.
Proof.
  intros live. unfold after, completion.
  rewrite laid_out_run, _renderTextBubble_run by exact live. cbn [fst snd].
  destruct (rendered_fields scale s) as (_ & _ & flag & _ & _ & _ & recorded & surface).
  repeat match goal with |- _ /\ _ => split end.
  - reflexivity.
  - intros dirty. rewrite _renderTextBubble_run by exact live.
    now rewrite rendered_textureDirty.
  - exact flag.
  - rewrite rendered_trace. unfold rasterizations. rewrite !count_app.
    rewrite count_layout_calls, count_drawing by reflexivity.
    destruct (_textDirty s); cbn; lia.
  - apply laid_out_clean.
  - unfold rendered, drawing. cbn. rewrite laid_out_style. eexists. reflexivity.
  - exact surface.
  - intros columns rows wide high across down. rewrite surface, across, down.
    now rewrite !reflected_pixels.
  - exact recorded.
Qed.

Lemma precedes_sandwich p q before middle following :
  existsb p before = false -> existsb q before = false ->
  existsb p following = false -> existsb q following = false ->
  precedes p q (before ++ middle ++ following) = precedes p q middle.
Proof.
  intros pb qb pf qf. rewrite !precedes_app, existsb_app.
  rewrite (precedes_none_l p q before), (precedes_none_l p q following) by assumption.
  rewrite pb, qf. cbn.
  destruct (precedes p q middle), (existsb p middle); reflexivity.
Qed.

Lemma laid_out_content s :
  _bubbleType (laid_out s) = _bubbleType s /\ _pointsLeft (laid_out s) = _pointsLeft s.
Proof. unfold laid_out. destruct (_textDirty s); split; reflexivity. Qed.

(** C7, as the code has it.  [_renderTextBubble] first builds the path: one
    [beginPath], the outline of the body and then the tail, and the
    [restore] that ends the tail; no call before or after these adds to a
    path.  Right after that [restore] it sets the fill style, the stroke
    style and the line width, then strokes the path and then fills it;
    these are the only [stroke] and [fill] among its calls, so the stroke
    comes before the fill and never after it. *)
Theorem bubble_stroked_then_filled (scale : number) (s : Skin) :
  _canvas s <> None ->
  let s1 := after (when (_textDirty s) _reflowLines) s in
  let path :=
    map Ctx (body_path (_style s) (width (_textAreaSize s1)) (height (_textAreaSize s1))
             ++ tail_path (_bubbleType s)) in
  exists before following,
    trace (after (_renderTextBubble scale) s) =
      trace s ++ before ++ path ++ [Ctx ctx_restore] ++ painting (_style s) ++ following /\
    hd_error path = Some (Ctx ctx_beginPath) /\
    count is_beginPath path = 1 /\
    existsb is_path_call before = false /\ existsb is_path_call following = false /\
    existsb is_stroke before = false /\ existsb is_fill before = false /\
    existsb is_stroke path = false /\ existsb is_fill path = false /\
    existsb is_stroke following = false /\ existsb is_fill following = false /\
    precedes is_stroke is_fill
      (before ++ path ++ [Ctx ctx_restore] ++ painting (_style s) ++ following) = true /\
    ~ fills_before_stroking
        (before ++ path ++ [Ctx ctx_restore] ++ painting (_style s) ++ following).
Proof.
  intros live. unfold after. rewrite laid_out_run, _renderTextBubble_run by exact live.
  cbn [snd]. rewrite rendered_trace.
  set (s1 := laid_out s).
  set (path := map Ctx (body_path (_style s) (width (_textAreaSize s1))
                          (height (_textAreaSize s1)) ++ tail_path (_bubbleType s))).
  set (before :=
         layout_calls s
           ++ [assign_canvas_width (requested_width scale s1);
               assign_canvas_height (requested_height scale s1);
               Ctx (ctx_font (style_font (_style s)))]
           ++ map Ctx [ctx_setTransform 1 0 0 1 0 0;
                       ctx_clearRect 0 0 (surface_width scale s1) (surface_height scale s1);
                       ctx_scale scale scale;
                       ctx_translate (strokeWidth (_style s) * dec 0.5)
                         (strokeWidth (_style s) * dec 0.5);
                       ctx_save]%num
           ++ map Ctx (mirror (_pointsLeft s) (width (_textAreaSize s1)))).
  set (following :=
         [Ctx ctx_restore; Ctx (ctx_fillStyle (textFill (_style s)))]
           ++ text_calls (_style s) (_lines s1) 0).
  exists before, following.
  assert (forall p, p = is_stroke \/ p = is_fill \/ p = is_path_call ->
                    existsb p before = false) as clear_before.
  { intros p which. subst before. unfold layout_calls, mirror.
    rewrite !existsb_app.
    destruct (_textDirty s), (_pointsLeft s);
      destruct which as [-> | [-> | ->]]; cbn;
      rewrite ?existsb_map_none by reflexivity; reflexivity. }
  assert (forall p, p = is_stroke \/ p = is_fill \/ p = is_path_call ->
                    existsb p following = false) as clear_following.
  { intros p which. subst following. rewrite existsb_app.
    destruct which as [-> | [-> | ->]]; cbn;
      rewrite existsb_text_calls by reflexivity; reflexivity. }
  assert (forall p, p = is_stroke \/ p = is_fill -> existsb p path = false) as clear_path.
  { intros p which. subst path. unfold tail_path.
    destruct (String.eqb (_bubbleType s) "say"); destruct which as [-> | ->]; reflexivity. }
  assert (forall p, p = is_stroke \/ p = is_fill ->
                    existsb p (before ++ path ++ [Ctx ctx_restore]) = false) as clear_start.
  { intros p which. rewrite !existsb_app, clear_path by exact which.
    rewrite clear_before by tauto. destruct which as [-> | ->]; reflexivity. }
  assert (forall p q,
            p = is_stroke \/ p = is_fill -> q = is_stroke \/ q = is_fill ->
            precedes p q
              (before ++ path ++ [Ctx ctx_restore] ++ painting (_style s) ++ following) =
            precedes p q (painting (_style s))) as within.
  { intros p q which_p which_q.
    replace (before ++ path ++ [Ctx ctx_restore] ++ painting (_style s) ++ following)
      with ((before ++ path ++ [Ctx ctx_restore]) ++ painting (_style s) ++ following)
      by now rewrite <- !app_assoc.
    apply precedes_sandwich;
      (apply clear_start || apply clear_following); tauto. }
  repeat match goal with |- _ /\ _ => split end;
    try ((apply clear_before || apply clear_following || apply clear_path); tauto).
  - f_equal. subst before path following. unfold drawing, paint, painting. fold s1.
    destruct (laid_out_content s) as (type & side). fold s1 in type, side.
    rewrite type, side. replace (_style s1) with (_style s) by (symmetry; apply laid_out_style).
    rewrite !map_app. cbn [map].
    repeat (rewrite <- app_assoc || rewrite <- app_comm_cons). reflexivity.
  - reflexivity.
  - subst path. unfold tail_path.
    destruct (String.eqb (_bubbleType s) "say"); reflexivity.
  - rewrite within by auto. reflexivity.
  - unfold fills_before_stroking. rewrite within by auto. discriminate.
Qed.

(** Once [getTexture] ran for a scale that is a number, the texture is not
    stale for that scale. *)
Lemma textured_fresh scale s :
  requestedScale scale <> NaN ->
  stale (requestedScale scale) (textured scale s) = false.
Proof.
  intros numeric. destruct (stale (requestedScale scale) s) eqn:dirty.
  - destruct (textured_fields scale s) as (_ & _ & _ & fresh).
    destruct (fresh dirty) as (flag & recorded).
    unfold stale. rewrite flag, recorded.
    destruct (requestedScale scale) as [|q|[]]; [congruence | | reflexivity ..].
    apply strict_neq_refl.
  - unfold textured. now rewrite dirty.
Qed.

Lemma laid_out_fields s :
  _canvas (laid_out s) = _canvas s /\ _texture (laid_out s) = _texture s.
Proof. unfold laid_out. destruct (_textDirty s); split; reflexivity. Qed.

(** No request makes a second texture: a texture object is created only
    while [_texture] is [null], and [_texture] holds it from then on. *)
Lemma perform_keeps_texture r s :
  _canvas s <> None ->
  let s' := after (perform r) s in
  _canvas s' <> None /\
  creations (trace s') + match _texture s' with Some _ => 0 | None => 1 end
    <= creations (trace s) + match _texture s with Some _ => 0 | None => 1 end.
Proof.
  intros live. destruct r as [type text pointsLeft | newStyle | | scale]; cbn zeta.
  - cbn. split; [exact live |].
    unfold creations. rewrite count_app. cbn. lia.
  - unfold perform, after. rewrite setStyle_run by exact live. cbn.
    split; [exact live |].
    unfold creations. rewrite count_app. cbn. lia.
  - unfold perform, after, bind. rewrite size_run. cbn [snd ret].
    destruct (laid_out_fields s) as (-> & ->). split; [exact live |].
    rewrite laid_out_trace. unfold creations.
    rewrite count_app, count_layout_calls by reflexivity.
    destruct (_textDirty s); cbn; lia.
  - assert (after (perform (ask_getTexture scale)) s = after (getTexture scale) s) as ->.
    { unfold perform, after, bind. rewrite getTexture_run by exact live. reflexivity. }
    rewrite creations_getTexture by exact live.
    unfold after. rewrite getTexture_run by exact live. cbn [snd].
    destruct (textured_fields scale s) as (-> & _ & -> & _). split; [exact live |].
    destruct (_texture s), (stale (requestedScale scale) s); lia.
Qed.

Lemma serve_keeps_texture requests : forall s,
  _canvas s <> None ->
  creations (trace (serve requests s))
    <= creations (trace s) + match _texture s with Some _ => 0 | None => 1 end.
Proof.
  induction requests as [|r rest IH]; intros s live; cbn.
  - cbn. lia.
  - cbn. destruct (perform_keeps_texture r s live) as (live' & kept).
    specialize (IH _ live'). lia.
Qed.


End Properties.

(** ** The properties at work on the concrete skin *)




(** A style change that changes nothing still notifies. *)
Lemma notifications_on_hello :
  _canvas hello <> None /\
  notifications (trace (after (setStyle no_properties) hello)) =
    notifications (trace hello) + 1 /\
  notifications (trace (after (size monospace one_word_per_line) hello)) =
    notifications (trace hello).
Proof.
  assert (_canvas hello <> None) as live by discriminate.
  destruct (notification_on_mutation_only monospace one_word_per_line hello)
    as (_ & style & layout & _).
  destruct (style no_properties live) as (once & _).
  exact (conj live (conj once layout)).
Defined.

(** C7, as stated, fails on the new skin: no [fill] comes before a
    [stroke] among the calls of its rasterization. *)
Lemma hello_is_not_filled_before_stroked :
  ~ fills_before_stroking
      (trace (after (_renderTextBubble monospace one_word_per_line 1) hello)).
Proof. unfold fills_before_stroking. vm_compute. discriminate. Qed.

(** The new skin: its path is that of a 74 by 52 body with the tail of a
    say bubble. *)
Lemma painting_on_hello :
  _canvas hello <> None /\
  exists before following,
    trace (after (_renderTextBubble monospace one_word_per_line 1) hello) =
      trace hello ++ before
        ++ map Ctx (body_path DEFAULT_BUBBLE_STYLE 70 52 ++ tail_path "say")
        ++ [Ctx ctx_restore] ++ painting DEFAULT_BUBBLE_STYLE ++ following /\
    existsb is_path_call before = false /\ existsb is_path_call following = false /\
    existsb is_stroke before = false /\ existsb is_fill before = false /\
    existsb is_stroke following = false /\ existsb is_fill following = false.
Proof.
  assert (_canvas hello <> None) as live by discriminate.
  destruct (bubble_stroked_then_filled monospace one_word_per_line 1 hello live)
    as (before & following & calls & _ & _ & pb & pf & sb & fb & _ & _ & sf & ff & _).
  split; [exact live |].
  exists before, following.
  exact (conj calls (conj pb (conj pf (conj sb (conj fb (conj sf ff)))))).
Defined.

(** The new skin rasterized at scale 2: a canvas of 148 by 136. *)
Lemma renderTextBubble_on_hello :
  let s' := after (_renderTextBubble monospace one_word_per_line 2) hello in
  _canvas hello <> None /\
  canvas s' = {| canvas_width := 148; canvas_height := 136;
                 canvas_font := px_font 14 "Helvetica" |} /\
  _renderedScale s' = 2%num /\
  _textureDirty s' = true.
Proof.
  assert (_canvas hello <> None) as live by discriminate.
  destruct (renderTextBubble_unconditional monospace one_word_per_line 2 hello live)
    as (_ & _ & flag & _ & _ & _ & _ & exact_extent & recorded).
  assert (0 <= 148 <= 2147483647)%Z as columns by lia.
  assert (0 <= 136 <= 2147483647)%Z as rows by lia.
  exact (conj live (conj (exact_extent 148%Z 136%Z columns rows eq_refl eq_refl)
                      (conj recorded flag))).
Defined.

(** A scale that is not a number is never found rendered: every query
    rasterizes again. *)
Example nan_scale_is_rasterized_every_time :
  let s1 := after (getTexture monospace one_word_per_line (Some (NaN, NaN))) hello in
  let s2 := after (getTexture monospace one_word_per_line (Some (NaN, NaN))) s1 in
  requestedScale (Some (NaN, NaN)) = NaN /\
  rasterizations (trace s2) = rasterizations (trace hello) + 2.
Proof. vm_compute. split; reflexivity. Qed.

(** ** Further properties of the methods *)

Lemma created_textures_app l1 l2 :
  created_textures (l1 ++ l2) = created_textures l1 ++ created_textures l2.
Proof.
  induction l1 as [|e l1 IH]; cbn; [reflexivity |].
  destruct e; cbn; rewrite IH; reflexivity.
Qed.

Lemma deleted_textures_app l1 l2 :
  deleted_textures (l1 ++ l2) = deleted_textures l1 ++ deleted_textures l2.
Proof.
  induction l1 as [|e l1 IH]; cbn; [reflexivity |].
  destruct e; cbn; rewrite IH; reflexivity.
Qed.

Lemma created_textures_none l :
  Forall (fun e => is_createTexture e = false) l -> created_textures l = [].
Proof.
  induction 1 as [|e l none _ IH]; cbn; [reflexivity |].
  destruct e; try discriminate; exact IH.
Qed.

Lemma deleted_textures_none l :
  Forall (fun e => is_deleteTexture e = false) l -> deleted_textures l = [].
Proof.
  induction 1 as [|e l none _ IH]; cbn; [reflexivity |].
  destruct e; try discriminate; exact IH.
Qed.

Lemma Forall_map_event {A : Type} (P : Event -> Prop) (f : A -> Event) (l : list A) :
  (forall a, P (f a)) -> Forall P (map f l).
Proof. intros all. induction l; cbn; constructor; auto. Qed.

Lemma Forall_text_calls (P : Event -> Prop) style lines : forall lineNumber,
  (forall t x y, P (Ctx (ctx_fillText t x y))) ->
  Forall P (text_calls style lines lineNumber).
Proof. induction lines; intros; cbn; constructor; auto. Qed.

Lemma stack_depth_app l1 l2 : forall depth,
  stack_depth (l1 ++ l2) depth =
    match stack_depth l1 depth with
    | Some depth' => stack_depth l2 depth'
    | None => None
    end.
Proof.
  induction l1 as [|e l1 IH]; intros depth; cbn; [reflexivity |].
  destruct e as [c| | | | | | | | | |]; try apply IH.
  destruct c; try apply IH. destruct depth; [reflexivity | apply IH].
Qed.

Lemma stack_depth_none l : forall depth,
  existsb is_save_or_restore l = false -> stack_depth l depth = Some depth.
Proof.
  induction l as [|e l IH]; intros depth none; cbn in *; [reflexivity |].
  apply orb_false_iff in none as [this rest].
  destruct e as [c| | | | | | | | | |]; try (now apply IH).
  destruct c; try discriminate; now apply IH.
Qed.

Lemma filled_app l1 l2 : filled (l1 ++ l2) = filled l1 ++ filled l2.
Proof.
  induction l1 as [|e l1 IH]; cbn; [reflexivity |].
  destruct e as [c| | | | | | | | | |]; try exact IH.
  destruct c; try exact IH. cbn. now rewrite IH.
Qed.

Lemma filled_none l : existsb is_fillText l = false -> filled l = [].
Proof.
  induction l as [|e l IH]; cbn; [reflexivity |].
  intros none. apply orb_false_iff in none as [this rest].
  destruct e as [c| | | | | | | | | |]; try (now apply IH).
  destruct c; try discriminate; now apply IH.
Qed.

Lemma filled_text_calls style lines : forall lineNumber,
  filled (text_calls style lines lineNumber) = map (fun line => (line, padding style)) lines.
Proof.
  induction lines as [|line rest IH]; intros lineNumber; cbn; [reflexivity |].
  now rewrite IH.
Qed.

Section FurtherProperties.

Variable native_measure : CanvasFont -> string -> Q.
Variable wrapper :
  CanvasFont -> gmap string Q -> number -> option string -> list string * gmap string Q.

Local Abbreviation _reflowLines := (_reflowLines native_measure wrapper).
Local Abbreviation _renderTextBubble := (_renderTextBubble native_measure wrapper).
Local Abbreviation getTexture := (getTexture native_measure wrapper).
Local Abbreviation updateSilhouette := (updateSilhouette native_measure wrapper).
Local Abbreviation size := (size native_measure wrapper).
Local Abbreviation measure_all := (measure_all native_measure).
Local Abbreviation wrapped := (wrapped wrapper).
Local Abbreviation reflowed := (reflowed native_measure wrapper).
Local Abbreviation laid_out := (laid_out native_measure wrapper).
Local Abbreviation rendered := (rendered native_measure wrapper).
Local Abbreviation textured := (textured native_measure wrapper).
Local Abbreviation layout_calls := (layout_calls wrapper).
Local Abbreviation perform := (perform native_measure wrapper).
Local Abbreviation serve := (serve native_measure wrapper).
Local Abbreviation layout_current := (layout_current native_measure wrapper).
Local Abbreviation coherent := (coherent native_measure wrapper).

Lemma perform_run r s :
  _canvas s <> None ->
  after (perform r) s =
    match r with
    | ask_setTextBubble type text pointsLeft => after (setTextBubble type text pointsLeft) s
    | ask_setStyle newStyle => restyled newStyle s
    | ask_size => laid_out s
    | ask_getTexture scale => textured scale s
    end.
Proof.
  intros live. destruct r as [type text pointsLeft | newStyle | | scale]; unfold perform, after.
  - reflexivity.
  - now rewrite setStyle_run.
  - unfold bind. now rewrite size_run.
  - unfold bind. now rewrite getTexture_run.
Qed.

Lemma constructor_coherent gl_created : coherent (constructor gl_created).
Proof.
  unfold coherent, constructor, after. cbn.
  repeat split; (discriminate || reflexivity).
Qed.

(** The layout [_reflowLines] computes depends on the font, the memo table,
    the style and the text only. *)
Lemma reflowed_layout s t :
  canvas_font (canvas s) = canvas_font (canvas t) -> cache s = cache t ->
  _style s = _style t -> _text s = _text t ->
  _lines (reflowed s) = _lines (reflowed t) /\
  _textAreaSize (reflowed s) = _textAreaSize (reflowed t) /\
  _size (reflowed s) = _size (reflowed t).
Proof.
  intros same_font same_memo same_style same_text.
  unfold reflowed, paddedWidth_of, paddedHeight_of, measured, wrapped.
  cbn [_lines _textAreaSize _size].
  rewrite same_font, same_memo, same_style, same_text. repeat split.
Qed.

Lemma layout_current_transfer s t :
  canvas_font (canvas s) = canvas_font (canvas t) ->
  _style s = _style t -> _text s = _text t ->
  _lines s = _lines t -> _textAreaSize s = _textAreaSize t -> _size s = _size t ->
  layout_current s -> layout_current t.
Proof.
  intros same_font same_style same_text same_lines same_area same_size (memo & layout).
  exists memo. cbv zeta in *. unfold after in *. rewrite _reflowLines_run in *. cbn [snd] in *.
  destruct (reflowed_layout (set_cache memo s) (set_cache memo t))
    as (lines & area & sized); try assumption; try reflexivity.
  rewrite <- lines, <- area, <- sized, <- same_lines, <- same_area, <- same_size.
  exact layout.
Qed.

Lemma reflowed_current s : layout_current (reflowed s).
Proof.
  exists (cache s). cbv zeta. unfold after. rewrite _reflowLines_run. cbn [snd].
  apply reflowed_layout; reflexivity.
Qed.

Lemma laid_out_coherent s : coherent s -> coherent (laid_out s).
Proof.
  unfold laid_out. destruct (_textDirty s) eqn:dirty; [| tauto].
  intros (live & fnt & _ & clean). split; [exact live |]. split; [exact fnt |].
  split; [intros _; apply reflowed_current |].
  intros fresh. destruct (clean fresh) as (layout & _). congruence.
Qed.

Lemma laid_out_current s : coherent s -> layout_current (laid_out s).
Proof.
  intros sound. apply laid_out_coherent in sound as (_ & _ & layout & _).
  apply layout, laid_out_clean.
Qed.

Lemma textured_coherent scale s : coherent s -> coherent (textured scale s).
Proof.
  intros sound. unfold textured.
  destruct (stale (requestedScale scale) s) eqn:dirty; [| exact sound].
  pose proof (laid_out_current s sound) as layout.
  destruct sound as (live & fnt & _).
  assert (canvas_font (canvas (laid_out s)) = style_font (_style (laid_out s))) as fnt'.
  { unfold laid_out. destruct (_textDirty s); exact fnt. }
  assert (_canvas (laid_out s) <> None) as live'.
  { now destruct (laid_out_fields native_measure wrapper s) as (-> & _). }
  pose proof (laid_out_clean native_measure wrapper s) as clean.
  generalize (requestedScale scale) as q. intros q. clear dirty live fnt.
  unfold rendered. cbv zeta.
  set (s1 := laid_out s) in *. clearbody s1.
  set (s2 := uploaded _).
  assert (_canvas s2 = _canvas s1 /\ _style s2 = _style s1 /\ _text s2 = _text s1 /\
          _lines s2 = _lines s1 /\ _textAreaSize s2 = _textAreaSize s1 /\
          _size s2 = _size s1 /\ _textDirty s2 = false /\ _renderedScale s2 = q /\
          _pointsLeft s2 = _pointsLeft s1 /\ _bubbleType s2 = _bubbleType s1 /\
          _texture s2 <> None /\
          canvas s2 = {| canvas_width := surface_width q s1;
                         canvas_height := surface_height q s1;
                         canvas_font := style_font (_style s1) |} /\
          exists made,
            trace s2 = trace s1 ++ drawing q s1
              ++ Ctx (ctx_getImageData 0 0 (surface_width q s1) (surface_height q s1)) :: made
              ++ [call_setTexture (_texture s2)
                    {| data_width := surface_width q s1;
                       data_height := surface_height q s1 |}] /\
            Forall (fun e => is_createTexture e = true) made)
    as (cv & st & tx & ls & ta & sz & td & rs & pl & bt & tex & cn & made & calls & only).
  { subst s2. unfold uploaded, upload.
    destruct s1 as [cv sz rs ls ta tx bt pl td xd st tex cn ch cr tr].
    cbn in clean. subst td.
    destruct tex as [t|]; cbn; repeat split; try discriminate.
    - exists []. split; [| constructor].
      repeat (rewrite <- app_assoc || rewrite <- app_comm_cons). reflexivity.
    - exists [twgl_createTexture false CLAMP_TO_EDGE cr]. split; [| repeat constructor].
      repeat (rewrite <- app_assoc || rewrite <- app_comm_cons). reflexivity. }
  clearbody s2.
  assert (drawing q s2 = drawing q s1) as same_drawing.
  { unfold drawing, surface_width, surface_height, requested_width, requested_height.
    now rewrite st, ta, sz, pl, bt, ls. }
  split; [congruence |]. split; [rewrite cn, st; reflexivity |].
  split.
  - intros _. apply (layout_current_transfer s1); try congruence.
    rewrite cn. exact fnt'.
  - intros _. unfold texture_current. rewrite cn. cbn [canvas_width canvas_height].
    rewrite rs, sz. repeat split; try assumption.
    exists (trace s1), made. rewrite same_drawing. split; assumption.
Qed.

Lemma restyled_coherent newStyle s : coherent s -> coherent (restyled newStyle s).
Proof.
  unfold coherent, restyled. cbn. intros (live & _). repeat split; (assumption || discriminate).
Qed.

Lemma setTextBubble_coherent type text pointsLeft s :
  coherent s -> coherent (after (setTextBubble type text pointsLeft) s).
Proof.
  unfold coherent. cbn. intros (live & fnt & _). repeat split; (assumption || discriminate).
Qed.

Lemma perform_coherent r s : coherent s -> coherent (after (perform r) s).
Proof.
  intros sound. rewrite perform_run by apply sound.
  destruct r.
  - now apply setTextBubble_coherent.
  - now apply restyled_coherent.
  - now apply laid_out_coherent.
  - now apply textured_coherent.
Qed.

Lemma serve_coherent requests : forall s, coherent s -> coherent (serve requests s).
Proof.
  induction requests as [|r rest IH]; intros s sound; cbn; [exact sound |].
  apply IH, perform_coherent, sound.
Qed.

Lemma layout_calls_no_gl s :
  created_textures (layout_calls s) = [] /\ deleted_textures (layout_calls s) = [].
Proof.
  unfold layout_calls. destruct (_textDirty s); cbn; [| split; reflexivity].
  split; [apply created_textures_none | apply deleted_textures_none];
    now apply Forall_map_event.
Qed.

Lemma drawing_no_gl scale s :
  created_textures (drawing scale s) = [] /\ deleted_textures (drawing scale s) = [].
Proof.
  unfold drawing.
  split; [apply created_textures_none | apply deleted_textures_none];
    (apply Forall_app; split;
     [ repeat constructor
     | apply Forall_app; split;
       [ now apply Forall_map_event | now apply Forall_text_calls ] ]).
Qed.

Lemma perform_keeps_handle r s t :
  _canvas s <> None ->
  _texture s = Some t ->
  _canvas (after (perform r) s) <> None /\ _texture (after (perform r) s) = Some t.
Proof.
  intros live held. rewrite perform_run by exact live.
  destruct r as [type text pointsLeft | newStyle | | scale].
  - cbn. auto.
  - cbn. auto.
  - destruct (laid_out_fields native_measure wrapper s) as (-> & ->). auto.
  - destruct (textured_fields native_measure wrapper scale s) as (-> & _ & -> & _).
    rewrite held. auto.
Qed.

Lemma serve_keeps_handle requests : forall s t,
  _canvas s <> None ->
  _texture s = Some t ->
  _canvas (serve requests s) <> None /\ _texture (serve requests s) = Some t.
Proof.
  induction requests as [|r rest IH]; intros s t live held; cbn; [auto |].
  destruct (perform_keeps_handle r s t live held) as (live' & held').
  now apply IH.
Qed.

(** The textures of a trace are accounted for: the one [_texture] holds is
    the only one created, and none is deleted. *)
Lemma perform_accounts r s :
  _canvas s <> None ->
  created_textures (trace s) = match _texture s with Some t => [t] | None => [] end ->
  deleted_textures (trace s) = [] ->
  let s' := after (perform r) s in
  created_textures (trace s') = match _texture s' with Some t => [t] | None => [] end /\
  deleted_textures (trace s') = [].
Proof.
  intros live made none. cbv zeta. rewrite perform_run by exact live.
  destruct r as [type text pointsLeft | newStyle | | scale].
  - cbn. rewrite created_textures_app, deleted_textures_app, made, none. cbn.
    rewrite app_nil_r. auto.
  - cbn. rewrite created_textures_app, deleted_textures_app, made, none. cbn.
    rewrite app_nil_r. auto.
  - rewrite laid_out_trace. destruct (laid_out_fields native_measure wrapper s) as (_ & ->).
    destruct (layout_calls_no_gl s) as (c & d).
    rewrite created_textures_app, deleted_textures_app, made, none, c, d.
    rewrite app_nil_r. auto.
  - destruct (textured_fields native_measure wrapper scale s) as (_ & _ & kept & _).
    rewrite kept.
    destruct (stale (requestedScale scale) s) eqn:dirty.
    + rewrite textured_trace by exact dirty.
      destruct (layout_calls_no_gl s) as (c & d).
      destruct (drawing_no_gl (requestedScale scale) (laid_out s)) as (c' & d').
      rewrite !created_textures_app, !deleted_textures_app, made, none, c, d, c', d'.
      unfold upload.
      destruct (rendered_fields native_measure wrapper (requestedScale scale) s)
        as (_ & -> & _ & _ & -> & _).
      destruct (_texture s); cbn; split; reflexivity.
    + unfold textured. rewrite dirty, made, none. destruct (_texture s); auto.
Qed.

Lemma serve_accounts requests : forall s,
  coherent s ->
  created_textures (trace s) = match _texture s with Some t => [t] | None => [] end ->
  deleted_textures (trace s) = [] ->
  let s' := serve requests s in
  created_textures (trace s') = match _texture s' with Some t => [t] | None => [] end /\
  deleted_textures (trace s') = [].
Proof.
  induction requests as [|r rest IH]; intros s sound made none; cbn; [auto |].
  destruct (perform_accounts r s (proj1 sound) made none) as (made' & none').
  apply IH; [now apply perform_coherent | exact made' | exact none'].
Qed.

(** X1.  In every state a new skin reaches by content changes, style
    changes, size queries and texture queries, in any order, the font of
    the canvas' context is the one of the current style: text is always
    measured and drawn under it. *)
Theorem font_follows_style (gl_created : nat) (requests : list Request) :
  let s := serve requests (constructor gl_created) in
  _canvas s <> None /\
  canvas_font (canvas s) = px_font (fontSize (_style s)) (font (_style s)).
Proof.
  destruct (serve_coherent requests _ (constructor_coherent gl_created)) as (live & fnt & _).
  split; assumption.
Qed.

(** X2.  In every such state whose layout-dirty flag is clear, the layout
    is that of the text and of the style the skin has now: the lines are
    the ones the wrapper gives for the current text at the current maximum
    line width, under the current font and from some state of the provider's
    memo table; the text area is as wide as the widest of them (or the
    minimum width) and as high as they are many, plus the padding; the size
    adds the stroke, and the tail in height.  [_reflowLines], run again on
    the current text and style, would compute the same layout: no mutation
    leaves a stale layout behind a clear flag. *)
Theorem clean_layout_is_current (gl_created : nat) (requests : list Request) :
  let s := serve requests (constructor gl_created) in
  _textDirty s = false ->
  exists memo,
    let answer := wrapper (canvas_font (canvas s)) memo (maxLineWidth (_style s)) (_text s) in
    let widths := fst (measure_all (canvas_font (canvas s)) (snd answer) (fst answer)) in
    (let s' := after _reflowLines (set_cache memo s) in
     _lines s = _lines s' /\ _textAreaSize s = _textAreaSize s' /\ _size s = _size s') /\
    _lines s = fst answer /\
    width (_textAreaSize s) =
      (Math_max (longest widths) (minWidth (_style s)) + padding (_style s) * 2)%num /\
    height (_textAreaSize s) =
      ((lineHeight (_style s) * number_of_nat (length (_lines s))) +
         (padding (_style s) * 2))%num /\
    _size s =
      ((width (_textAreaSize s) + strokeWidth (_style s))%num,
       (height (_textAreaSize s) + strokeWidth (_style s) + tailHeight (_style s))%num).
Proof.
  destruct (serve_coherent requests _ (constructor_coherent gl_created))
    as (_ & _ & layout & _).
  cbv zeta. intros clean. destruct (layout clean) as (memo & lines & area & sized).
  exists memo. split; [exact (conj lines (conj area sized)) |].
  unfold after in lines, area, sized. rewrite _reflowLines_run in lines, area, sized.
  cbn [snd] in lines, area, sized.
  set (s := serve requests (constructor gl_created)) in *. clearbody s.
  destruct s as [cv sz rs ls ta tx bt pl td xd st tex cn ch cr tr].
  unfold reflowed, paddedWidth_of, paddedHeight_of, measured, wrapped in lines, area, sized.
  cbn in lines, area, sized. cbn. subst ls ta sz. repeat split.
Qed.





Lemma ndiv_100_compat (a b : Q) : (a == b)%Q -> (Fin a / 100)%num = (Fin b / 100)%num.
Proof.
  intros same. rewrite !ndiv_100. apply binary64_compat. now rewrite same.
Qed.

(** X7.  The scale [getTexture] renders at looks only at the larger of the
    two magnitudes: exchanging the components of the vector, or changing the
    sign of either, does not change it. *)
Theorem requestedScale_symmetric (x y : number) :
  requestedScale (Some (y, x)) = requestedScale (Some (x, y)) /\
  requestedScale (Some ((- x)%num, y)) = requestedScale (Some (x, y)) /\
  requestedScale (Some (x, (- y)%num)) = requestedScale (Some (x, y)).
Proof.
  assert (forall a, Math_abs (- a)%num = Math_abs a) as abs_neg.
  { intros [|[n d]|negative]; try reflexivity.
    unfold Math_abs, nneg, Qabs, Qopp. cbn. now rewrite Z.abs_opp. }
  repeat split.
  - destruct x as [|a|[]], y as [|b|[]]; try reflexivity.
    unfold requestedScale, Math_abs.
    destruct (Math_max_finite (Qabs b) (Qabs a)) as (m & -> & value).
    destruct (Math_max_finite (Qabs a) (Qabs b)) as (m' & -> & value').
    f_equal. apply ndiv_100_compat. rewrite value, value'. apply Q.max_comm.
  - unfold requestedScale. now rewrite abs_neg.
  - unfold requestedScale. now rewrite abs_neg.
Qed.

Lemma strict_neq_other rs qa qb :
  (rs !== Fin qa)%num = false -> ~ (qa == qb)%Q -> (rs !== Fin qb)%num = true.
Proof.
  destruct rs as [|r|negative]; [discriminate | | discriminate]. unfold strict_neq.
  intros same differ. apply negb_false_iff, Qeq_bool_iff in same.
  apply negb_true_iff. destruct (Qeq_bool r qb) eqn:eq; [| reflexivity].
  apply Qeq_bool_iff in eq. exfalso. apply differ. now rewrite <- same.
Qed.


(** X9.  A size query is a layout matter only: it never resizes the canvas,
    never draws, uploads or creates a texture, never notifies, and leaves
    the texture-dirty flag, the recorded scale, the texture, the content and
    the style as they were, in every state (a disposed skin included). *)
Theorem size_leaves_texture_alone (s : Skin) :
  let s' := after size s in
  _textureDirty s' = _textureDirty s /\ _renderedScale s' = _renderedScale s /\
  _texture s' = _texture s /\ canvas s' = canvas s /\ _canvas s' = _canvas s /\
  _style s' = _style s /\ _text s' = _text s /\ _bubbleType s' = _bubbleType s /\
  _pointsLeft s' = _pointsLeft s /\ created s' = created s /\
  (exists calls, trace s' = trace s ++ calls /\
                 Forall (fun e => is_wrapText e || is_measureText e = true) calls).
Proof.
  unfold after. rewrite size_run. cbn [snd]. rewrite laid_out_trace.
  unfold laid_out, layout_calls.
  destruct (_textDirty s); cbn; repeat split; eexists; (split; [reflexivity |]).
  - constructor; [reflexivity |]. now apply Forall_map_event.
  - constructor.
Qed.

(** X10.  A texture query that rasterizes brings the layout up to date: the
    size query that follows changes nothing, calls nothing, and returns the
    very size whose [ceil(size * scale)] the rasterization assigned to the
    width and the height of the canvas, which has the extent the element
    keeps of them. *)
Theorem size_after_getTexture (scale : option (number * number)) (s : Skin) :
  _canvas s <> None ->
  stale (requestedScale scale) s = true ->
  let s1 := after (getTexture scale) s in
  let w := Math_ceil (fst (_size s1) * requestedScale scale) in
  let h := Math_ceil (snd (_size s1) * requestedScale scale) in
  size s1 = (Normal (_size s1), s1) /\
  (exists later,
     trace s1 = trace s ++ layout_calls s
                  ++ assign_canvas_width w :: assign_canvas_height h :: later) /\
  canvas_width (canvas s1) = reflected 300 w /\
  canvas_height (canvas s1) = reflected 150 h.
Proof.
  intros live dirty. cbv zeta. unfold after. rewrite getTexture_run by exact live. cbn [snd].
  rewrite size_run, textured_trace by exact dirty.
  assert (_textDirty (textured scale s) = false /\
          _size (textured scale s) = _size (laid_out s) /\
          canvas_width (canvas (textured scale s)) =
            reflected 300 (Math_ceil (fst (_size (textured scale s)) * requestedScale scale)) /\
          canvas_height (canvas (textured scale s)) =
            reflected 150 (Math_ceil (snd (_size (textured scale s)) * requestedScale scale)))
    as (clean & sized & w & h).
  { unfold textured. rewrite dirty. generalize (requestedScale scale) as q. intros q.
    unfold uploaded, rendered, laid_out.
    destruct s as [cv sz rs ls ta tx bt pl td xd st tex cn ch cr tr].
    destruct td, tex; cbn; repeat split. }
  unfold laid_out at 1 2. rewrite clean. repeat split; try assumption.
  rewrite sized. unfold drawing, requested_width, requested_height.
  eexists. cbn [app]. reflexivity.
Qed.

(** X11.  On a disposed skin [setStyle] throws a [TypeError], but only after
    it replaced the style and emptied the measurement provider's memo table:
    the dirty flags stay as they were and no notification is sent. *)
Theorem setStyle_after_dispose (newStyle : NewStyle) (s : Skin) :
  _canvas s = None ->
  let s' := after (setStyle newStyle) s in
  completion (setStyle newStyle) s = Throw TypeError /\
  _style s' = Object_assign (_style s) newStyle /\
  cache s' = ∅ /\
  _textDirty s' = _textDirty s /\ _textureDirty s' = _textureDirty s /\
  canvas s' = canvas s /\
  trace s' = trace s ++ [call_clearCache].
Proof.
  intros gone. unfold after, completion, setStyle.
  destruct s as [cv sz rs ls ta tx bt pl td xd st tex cn ch cr tr].
  cbn in gone. subst cv. cbn. repeat split.
Qed.


Lemma longest_bounded (widths : list Q) (m : Q) :
  (0 <= m)%Q -> Forall (fun w => (w <= m)%Q) widths ->
  Math_max (longest widths) (Fin m) = Fin m.
Proof.
  intros nonneg bounded.
  destruct (running_max widths 0) as (q & run & _ & _ & attained).
  unfold longest. change (0%num) with (Fin 0). rewrite run.
  assert (q <= m)%Q as le.
  { destruct attained as [-> | member]; [exact nonneg |].
    rewrite List.Forall_forall in bounded. now apply bounded. }
  unfold Math_max. now rewrite (proj2 (Qle_bool_iff q m) le).
Qed.

(** X13.  When no wrapped line is wider than the style's [minWidth], the
    bubble has the minimum width: its text area is [minWidth + 2*padding]
    wide and the skin [strokeWidth] wider, whatever the text. *)
Theorem short_lines_give_minimum_width (s : Skin) (m : Q) :
  minWidth (_style s) = Fin m ->
  (0 <= m)%Q ->
  Forall (fun w => (w <= m)%Q) (fst (measured native_measure wrapper s)) ->
  let s' := after _reflowLines s in
  width (_textAreaSize s') = (minWidth (_style s) + padding (_style s) * 2)%num /\
  fst (_size s') =
    (minWidth (_style s) + padding (_style s) * 2 + strokeWidth (_style s))%num.
Proof.
  intros minimum nonneg bounded. cbv zeta. unfold after. rewrite _reflowLines_run. cbn.
  unfold paddedWidth_of. rewrite minimum, longest_bounded by assumption.
  split; reflexivity.
Qed.

(** X14.  When some wrapped line is wider than the style's [minWidth], the
    text area is as wide as the widest line plus the padding on both
    sides. *)
Theorem wide_line_sets_width (s : Skin) (m : Q) :
  minWidth (_style s) = Fin m ->
  (0 <= m)%Q ->
  Exists (fun w => (m < w)%Q) (fst (measured native_measure wrapper s)) ->
  let s' := after _reflowLines s in
  exists q,
    In q (fst (measured native_measure wrapper s)) /\
    Forall (fun w => (w <= q)%Q) (fst (measured native_measure wrapper s)) /\
    width (_textAreaSize s') = (Fin q + padding (_style s) * 2)%num /\
    fst (_size s') = (Fin q + padding (_style s) * 2 + strokeWidth (_style s))%num.
Proof.
  intros minimum nonneg wide. cbv zeta. unfold after. rewrite _reflowLines_run. cbn.
  unfold paddedWidth_of. rewrite minimum.
  destruct (running_max (fst (measured native_measure wrapper s)) 0)
    as (q & run & _ & upper & attained).
  apply List.Exists_exists in wide as (w & member & wider).
  assert (m < q)%Q as above.
  { eapply Qlt_le_trans; [exact wider |].
    rewrite List.Forall_forall in upper. now apply upper. }
  exists q. unfold longest. change (0%num) with (Fin 0). rewrite run.
  assert (Math_max (Fin q) (Fin m) = Fin q) as ->.
  { unfold Math_max. destruct (Qle_bool q m) eqn:le; [| reflexivity].
    apply Qle_bool_iff in le. exfalso. eapply Qlt_irrefl, Qlt_le_trans; eassumption. }
  repeat split; try assumption.
  destruct attained as [-> | found]; [| exact found].
  exfalso. eapply Qlt_irrefl, Qle_lt_trans; eassumption.
Qed.

(** X15.  Every [save] of a rasterization is matched by a [restore]: the
    calls of [_renderTextBubble] save the context's state twice, restore it
    twice, never restore what was not saved, and leave the stack of saved
    states as deep as they found it. *)
Theorem rasterization_balances_the_stack (scale : number) (s : Skin) :
  _canvas s <> None ->
  exists calls,
    trace (after (_renderTextBubble scale) s) = trace s ++ calls /\
    (forall depth, stack_depth calls depth = Some depth) /\
    count (fun e => match e with Ctx ctx_save => true | _ => false end) calls = 2 /\
    count (fun e => match e with Ctx ctx_restore => true | _ => false end) calls = 2.
Proof.
  intros live. unfold after. rewrite _renderTextBubble_run by exact live. cbn [snd].
  rewrite rendered_trace. eexists. split; [reflexivity |].
  set (s1 := laid_out s).
  assert (existsb is_save_or_restore (layout_calls s) = false) as quiet_layout.
  { unfold layout_calls. destruct (_textDirty s); cbn; [| reflexivity].
    now apply existsb_map_none. }
  assert (existsb is_save_or_restore (text_calls (_style s1) (_lines s1) 0) = false)
    as quiet_text by now apply existsb_text_calls.
  repeat split.
  - intros depth. rewrite stack_depth_app, (stack_depth_none _ _ quiet_layout).
    unfold drawing. rewrite !map_app, !stack_depth_app.
    unfold mirror, tail_path.
    destruct (_pointsLeft s1), (String.eqb (_bubbleType s1) "say"); cbn;
      now apply stack_depth_none.
  - rewrite count_app, count_layout_calls by reflexivity.
    unfold drawing, mirror, tail_path. rewrite !count_app, count_text_calls by reflexivity.
    destruct (_textDirty s), (_pointsLeft s1), (String.eqb (_bubbleType s1) "say");
      reflexivity.
  - rewrite count_app, count_layout_calls by reflexivity.
    unfold drawing, mirror, tail_path. rewrite !count_app, count_text_calls by reflexivity.
    destruct (_textDirty s), (_pointsLeft s1), (String.eqb (_bubbleType s1) "say");
      reflexivity.
Qed.

(** The calls of one rasterization of [s] whose [_pointsLeft] is [b], in
    three runs: up to the first [save]; the body and the tail, to the
    [restore] that follows the fill; the text. *)
Lemma rendered_towards scale b s :
  let s1 := laid_out s in
  let w := surface_width scale s1 in
  let h := surface_height scale s1 in
  trace (rendered scale (set__pointsLeft b s)) =
    trace s
      ++ (layout_calls s
            ++ [assign_canvas_width (requested_width scale s1);
                assign_canvas_height (requested_height scale s1);
                Ctx (ctx_font (style_font (_style s1)))]
            ++ map Ctx [ctx_setTransform 1 0 0 1 0 0;
                        ctx_clearRect 0 0 w h;
                        ctx_scale scale scale;
                        ctx_translate (strokeWidth (_style s1) * dec 0.5)
                          (strokeWidth (_style s1) * dec 0.5);
                        ctx_save]%num)
      ++ map Ctx (mirror b (width (_textAreaSize s1)))
      ++ (map Ctx (body_path (_style s1) (width (_textAreaSize s1))
                     (height (_textAreaSize s1)))
            ++ map Ctx (tail_path (_bubbleType s1))
            ++ map Ctx [ctx_restore;
                        ctx_fillStyle (bubbleFill (_style s1));
                        ctx_strokeStyle (bubbleStroke (_style s1));
                        ctx_lineWidth (strokeWidth (_style s1));
                        ctx_stroke; ctx_fill; ctx_restore])
      ++ (Ctx (ctx_fillStyle (textFill (_style s1)))
            :: text_calls (_style s1) (_lines s1) 0).
Proof.
  cbv zeta. rewrite rendered_trace.
  unfold drawing, paint, laid_out, layout_calls.
  destruct s as [cv sz rs ls ta tx bt pl td xd st tex cn ch cr tr].
  destruct td; cbn [_textDirty set__pointsLeft _pointsLeft _style _textAreaSize
                    _bubbleType _lines trace reflowed];
    rewrite !map_app; cbn [map];
    repeat (rewrite <- app_assoc || rewrite <- app_comm_cons); reflexivity.
Qed.


(** X17.  A rasterization draws each wrapped line once, in order, all at
    the abscissa [padding], and draws no other text. *)
Theorem rasterization_draws_each_line_once (scale : number) (s : Skin) :
  _canvas s <> None ->
  let s' := after (_renderTextBubble scale) s in
  filled (trace s') =
    filled (trace s) ++ map (fun line => (line, padding (_style s))) (_lines s') /\
  _lines s' = _lines (after (when (_textDirty s) _reflowLines) s).
Proof.
  intros live. cbv zeta. unfold after.
  rewrite _renderTextBubble_run by exact live. rewrite laid_out_run. cbn [snd].
  assert (_lines (rendered scale s) = _lines (laid_out s)) as same_lines by reflexivity.
  split; [| exact same_lines].
  rewrite rendered_trace, same_lines, !filled_app. f_equal.
  assert (filled (layout_calls s) = []) as ->.
  { apply filled_none. unfold layout_calls. destruct (_textDirty s); cbn; [| reflexivity].
    now apply existsb_map_none. }
  unfold drawing. rewrite !filled_app, filled_text_calls, laid_out_style.
  rewrite (filled_none (map Ctx _)); [reflexivity |].
  unfold mirror, tail_path.
  destruct (_pointsLeft (laid_out s)), (String.eqb (_bubbleType (laid_out s)) "say");
    reflexivity.
Qed.

(** X18.  Only the bubble type ["say"] gets the speech tail: any other
    type, the empty one of a new skin included, is drawn exactly as
    ["think"] is. *)
Theorem other_types_are_drawn_as_think (scale : number) (s : Skin) :
  _canvas s <> None ->
  _bubbleType s <> "say" ->
  _renderTextBubble scale s =
    (Normal tt,
     set__bubbleType (_bubbleType s)
       (after (_renderTextBubble scale) (set__bubbleType "think" s))).
Proof.
  intros live other. unfold after.
  rewrite !_renderTextBubble_run by exact live. cbn [snd]. f_equal.
  apply String.eqb_neq in other.
  unfold rendered, laid_out, drawing, tail_path.
  destruct s as [cv sz rs ls ta tx bt pl td xd st tex cn ch cr tr].
  cbn in other.
  destruct td; cbn; rewrite other; reflexivity.
Qed.


(** X20.  Style changes accumulate key by key: after two of them a key has
    the value of the second when the second has it, else that of the first
    when the first has it, else its old value; and each of the two
    notified. *)
Theorem setStyle_twice (first second : NewStyle) (s : Skin) :
  _canvas s <> None ->
  let s' := after (setStyle second) (after (setStyle first) s) in
  (forall (A : Type) (key : Key A),
     property key (_style s') =
       match new_property key second, new_property key first with
       | Some v, _ => v
       | None, Some v => v
       | None, None => property key (_style s)
       end) /\
  notifications (trace s') = notifications (trace s) + 2 /\
  _textDirty s' = true /\ _textureDirty s' = true /\ cache s' = ∅.
Proof.
  intros live. cbv zeta. unfold after.
  rewrite (setStyle_run first) by exact live. cbn [snd].
  rewrite setStyle_run by exact live. cbn [snd].
  repeat split.
  - intros A key. destruct key; cbn; unfold assigned;
      match goal with |- context [match ?x with _ => _ end] => destruct x end; reflexivity.
  - cbn. unfold notifications. rewrite !count_app. cbn. lia.
Qed.

Lemma textured_clean scale s :
  stale (requestedScale scale) s = true ->
  _textDirty (textured scale s) = false /\ _textureDirty (textured scale s) = false.
Proof.
  intros dirty. unfold textured. rewrite dirty.
  generalize (requestedScale scale) as q. intros q.
  unfold uploaded, rendered, laid_out.
  destruct s as [cv sz rs ls ta tx bt pl td xd st tex cn ch cr tr].
  destruct td, tex; split; reflexivity.
Qed.


End FurtherProperties.

(** ** The further properties at work on the concrete skins *)

Lemma layout_after_a_size_query :
  let s := serve monospace one_word_per_line
             [ask_setTextBubble "say" "Hello world" false; ask_size] (constructor 0) in
  _textDirty s = false /\ _lines s = ["Hello"; "world"] /\ _size s = (74, 68)%num.
Proof.
  assert (_textDirty (serve monospace one_word_per_line
                        [ask_setTextBubble "say" "Hello world" false; ask_size]
                        (constructor 0)) = false) as clean by reflexivity.
  destruct (clean_layout_is_current monospace one_word_per_line 0
              [ask_setTextBubble "say" "Hello world" false; ask_size] clean)
    as (memo & _ & lines & _ & _ & sized).
  exact (conj clean (conj lines sized)).
Defined.




Lemma size_of_hello_after_its_texture :
  let s1 := after (getTexture monospace one_word_per_line (Some (100, 100)%num)) hello in
  _canvas hello <> None /\
  stale (requestedScale (Some (100, 100)%num)) hello = true /\
  size monospace one_word_per_line s1 = (Normal (_size s1), s1) /\
  canvas_width (canvas s1) = 74%num /\ canvas_height (canvas s1) = 68%num.
Proof.
  assert (_canvas hello <> None) as live by discriminate.
  assert (stale (requestedScale (Some (100, 100)%num)) hello = true) as dirty by reflexivity.
  destruct (size_after_getTexture monospace one_word_per_line
              (Some (100, 100)%num) hello live dirty) as (cached & _ & w & h).
  exact (conj live (conj dirty (conj cached (conj w h)))).
Defined.

Lemma setStyle_on_the_disposed_hello :
  let s' := after (setStyle (only_fontSize 30)) hello_disposed in
  _canvas hello_disposed = None /\
  completion (setStyle (only_fontSize 30)) hello_disposed = Throw TypeError /\
  fontSize (_style s') = 30%num /\
  trace s' = trace hello_disposed ++ [call_clearCache].
Proof.
  assert (_canvas hello_disposed = None) as gone by reflexivity.
  destruct (setStyle_after_dispose (only_fontSize 30) hello_disposed gone)
    as (thrown & merged & _ & _ & _ & _ & calls).
  exact (conj gone (conj thrown (conj (f_equal fontSize merged) calls))).
Defined.

Lemma hello_has_the_minimum_width :
  let s' := after (_reflowLines monospace one_word_per_line) hello in
  minWidth (_style hello) = Fin 50 /\
  (0 <= 50)%Q /\
  Forall (fun w => (w <= 50)%Q) (fst (measured monospace one_word_per_line hello)) /\
  width (_textAreaSize s') = 70%num /\
  fst (_size s') = 74%num.
Proof.
  assert (minWidth (_style hello) = Fin 50) as minimum by reflexivity.
  assert (0 <= 50)%Q as nonneg by discriminate.
  assert (Forall (fun w => (w <= 50)%Q) (fst (measured monospace one_word_per_line hello)))
    as short.
  { change (Forall (fun w => (w <= 50)%Q) [35%Q; 35%Q]).
    repeat constructor; discriminate. }
  destruct (short_lines_give_minimum_width monospace one_word_per_line hello 50
              minimum nonneg short) as (area & total).
  exact (conj minimum (conj nonneg (conj short (conj area total)))).
Defined.

Lemma long_word_is_as_wide_as_its_word :
  let s' := after (_reflowLines monospace one_word_per_line) long_word in
  minWidth (_style long_word) = Fin 50 /\
  (0 <= 50)%Q /\
  Exists (fun w => (50 < w)%Q) (fst (measured monospace one_word_per_line long_word)) /\
  exists q, In q (fst (measured monospace one_word_per_line long_word)) /\
            width (_textAreaSize s') = (Fin q + 10 * 2)%num.
Proof.
  assert (minWidth (_style long_word) = Fin 50) as minimum by reflexivity.
  assert (0 <= 50)%Q as nonneg by discriminate.
  assert (Exists (fun w => (50 < w)%Q)
            (fst (measured monospace one_word_per_line long_word))) as wide.
  { change (Exists (fun w => (50 < w)%Q) [140%Q]). constructor. reflexivity. }
  destruct (wide_line_sets_width monospace one_word_per_line long_word 50
              minimum nonneg wide) as (q & member & _ & area & _).
  refine (conj minimum (conj nonneg (conj wide _))).
  exists q. exact (conj member area).
Defined.

Lemma hello_balances_the_stack :
  _canvas hello <> None /\
  exists calls,
    trace (after (_renderTextBubble monospace one_word_per_line 1) hello) =
      trace hello ++ calls /\
    stack_depth calls 0 = Some 0.
Proof.
  assert (_canvas hello <> None) as live by discriminate.
  destruct (rasterization_balances_the_stack monospace one_word_per_line 1 hello live)
    as (calls & emitted & balanced & _).
  split; [exact live |]. exists calls. exact (conj emitted (balanced 0)).
Defined.


Lemma hello_draws_its_two_lines :
  _canvas hello <> None /\
  filled (trace (after (_renderTextBubble monospace one_word_per_line 1) hello)) =
    [("Hello", 10%num); ("world", 10%num)].
Proof.
  assert (_canvas hello <> None) as live by discriminate.
  destruct (rasterization_draws_each_line_once monospace one_word_per_line 1 hello live)
    as (drawn & _).
  exact (conj live drawn).
Defined.

Lemma new_skin_is_drawn_as_think :
  _canvas (constructor 0) <> None /\
  _bubbleType (constructor 0) <> "say" /\
  _renderTextBubble monospace one_word_per_line 1 (constructor 0) =
    (Normal tt,
     set__bubbleType (_bubbleType (constructor 0))
       (after (_renderTextBubble monospace one_word_per_line 1)
          (set__bubbleType "think" (constructor 0)))).
Proof.
  assert (_canvas (constructor 0) <> None) as live by discriminate.
  assert (_bubbleType (constructor 0) <> "say") as other by discriminate.
  pose proof (other_types_are_drawn_as_think monospace one_word_per_line 1
                (constructor 0) live other) as same.
  exact (conj live (conj other same)).
Defined.


Lemma two_style_changes_on_hello :
  let s' := after (setStyle (only_fontSize 20)) (after (setStyle (only_fontSize 30)) hello) in
  _canvas hello <> None /\
  fontSize (_style s') = 20%num /\
  font (_style s') = "Helvetica" /\
  notifications (trace s') = notifications (trace hello) + 2.
Proof.
  assert (_canvas hello <> None) as live by discriminate.
  destruct (setStyle_twice (only_fontSize 30) (only_fontSize 20) hello live)
    as (merged & twice & _).
  exact (conj live (conj (merged _ key_fontSize) (conj (merged _ key_font) twice))).
Defined.

